(** * nncore: the training engine and its event writers

    A shallow embedding of [nncore/engine/engine.py] (the [Engine] class:
    hook registration and the stepping methods) and of
    [nncore/engine/hooks/events.py] (the writers and [EventWriterHook]),
    followed by the properties of the specification that concern them.

    Python objects are mutable, and an exception leaves the mutations made
    before it in place: every method is a function from the object's state
    to an outcome (normal return or raised exception) paired with the state
    it leaves behind. *)

From Stdlib Require Import ZArith Ascii String PrimFloat FloatOps SpecFloat.
From stdpp Require Import base strings gmap list.

Local Open Scope Z_scope.

(** ** Python-level notions shared by both source files *)

Module Py.

(** Exceptions.  [HookRaised] is an exception that escapes from a hook
    callback: it carries the hook's name, so that it is never confused with
    an error raised by the engine's own code. *)
Inductive exn : Type :=
| TypeError (msg : string)
| ValueError (msg : string)
| AttributeError (msg : string)
| KeyError (msg : string)
| IndexError (msg : string)
| ZeroDivisionError (msg : string)
| OverflowError (msg : string)
| HookRaised (hook : string) (payload : string).

Inductive outcome (A : Type) : Type :=
| Return (a : A)
| Raise (x : exn).
Arguments Return {A} a.
Arguments Raise {A} x.

(** Computations over a mutable state [S] that may raise. *)
Definition M (S A : Type) : Type := S -> outcome A * S.

Definition ret {S A} (a : A) : M S A := fun s => (Return a, s).
Definition raise {S A} (x : exn) : M S A := fun s => (Raise x, s).
Definition bind {S A B} (c : M S A) (k : A -> M S B) : M S B :=
  fun s => match c s with
           | (Return a, s') => k a s'
           | (Raise x, s') => (Raise x, s')
           end.
Definition get {S} : M S S := fun s => (Return s, s).
Definition modify {S} (f : S -> S) : M S unit := fun s => (Return tt, f s).
(** A computation that cannot raise and does not touch the state. *)
Definition lift {S A} (o : outcome A) : M S A := fun s => (o, s).

Notation "x <- c ;; k" := (bind c (fun x => k))
  (at level 20, c at level 99, k at level 200, only parsing).
Notation "c ;; k" := (bind c (fun _ => k))
  (at level 100, k at level 200, only parsing, right associativity).

(** [for x in xs: body(x)]: the first exception ends the loop. *)
Fixpoint for_each {S A} (xs : list A) (body : A -> M S unit) : M S unit :=
  match xs with
  | [] => ret tt
  | x :: xs' => body x ;; for_each xs' body
  end.

(** [str.startswith], [str.endswith]. *)
Definition startswith (p s : string) : bool := String.prefix p s.

Fixpoint str_rev_onto (s acc : string) : string :=
  match s with
  | EmptyString => acc
  | String c s' => str_rev_onto s' (String c acc)
  end.
Definition str_rev (s : string) : string := str_rev_onto s EmptyString.
Definition endswith (p s : string) : bool :=
  String.prefix (str_rev p) (str_rev s).

(** [s.split(sep)] for a separator of one character: [n] occurrences of the
    separator give [n + 1] tokens, empty ones included. *)
Fixpoint split (sep : ascii) (s : string) : list string :=
  match s with
  | EmptyString => [EmptyString]
  | String c s' =>
      if Ascii.eqb c sep then EmptyString :: split sep s'
      else match split sep s' with
           | [] => [String c EmptyString]
           | t :: ts => String c t :: ts
           end
  end.

(** [''.join(tokens)]. *)
Definition join (tokens : list string) : string :=
  fold_right String.append EmptyString tokens.

(** [l[-k]] for [k >= 1]: [None] stands for Python's [IndexError]. *)
Definition nth_from_end {A} (k : nat) (l : list A) : option A :=
  if decide (k ≤ length l)%nat then l !! (length l - k)%nat else None.

(** [l[:-k]]. *)
Definition drop_last {A} (k : nat) (l : list A) : list A :=
  take (length l - k)%nat l.

(** The last character of a string, if it has one. *)
Fixpoint last_char (s : string) : option ascii :=
  match s with
  | EmptyString => None
  | String c EmptyString => Some c
  | String _ s' => last_char s'
  end.

(** Python floats are IEEE 754 binary64 numbers: the primitive floats.
    [float(n)] for an integer, as the mixed operations [int * float] and
    [float / int] do it: rounded to nearest even, an error when too large. *)
Definition float_of_int (z : Z) : outcome float :=
  match binary_normalize 53 1024 z 0 false with
  | S754_infinity _ => Raise (OverflowError "int too large to convert to float")
  | sf => Return (SF2Prim sf)
  end.

(** [x / y] on floats: division by a zero raises. *)
Definition float_truediv (x y : float) : outcome float :=
  if PrimFloat.eqb y 0%float
  then Raise (ZeroDivisionError "float division by zero")
  else Return (PrimFloat.div x y).

(** [int(x)]: truncation toward zero. *)
Definition int_of_float (x : float) : outcome Z :=
  match Prim2SF x with
  | S754_zero _ => Return 0
  | S754_finite s m ex =>
      let a := match ex with
               | Z0 => Zpos m
               | Zpos p => Zpos m * 2 ^ Zpos p
               | Zneg p => Zpos m / 2 ^ Zpos p
               end in
      Return (if s then - a else a)
  | S754_infinity _ =>
      Raise (OverflowError "cannot convert float infinity to integer")
  | S754_nan => Raise (ValueError "cannot convert float NaN to integer")
  end.

(** [round(x)]: to the nearest integer, ties to the even one. *)
Definition round_float (x : float) : outcome Z :=
  match Prim2SF x with
  | S754_zero _ => Return 0
  | S754_finite s m ex =>
      let a := match ex with
               | Z0 => Zpos m
               | Zpos p => Zpos m * 2 ^ Zpos p
               | Zneg p =>
                   let d := 2 ^ Zpos p in
                   let q := Zpos m / d in
                   let r := Zpos m mod d in
                   match (2 * r ?= d) with
                   | Lt => q
                   | Gt => q + 1
                   | Eq => if Z.even q then q else q + 1
                   end
               end in
      Return (if s then - a else a)
  | S754_infinity _ =>
      Raise (OverflowError "cannot convert float infinity to integer")
  | S754_nan => Raise (ValueError "cannot convert float NaN to integer")
  end.

(** [timedelta(seconds=n)], as a number of seconds: the days must fit. *)
Definition timedelta (seconds : Z) : outcome Z :=
  if Z.abs (seconds / 86400) <=? 999999999 then Return seconds
  else Raise (OverflowError "days must have magnitude <= 999999999").

(** [sum(xs) / len(xs)] on floats, for a list that is not empty. *)
Definition float_mean (xs : list float) : float :=
  PrimFloat.div (fold_left PrimFloat.add xs 0%float)
                (SF2Prim (binary_normalize 53 1024 (Z.of_nat (length xs)) 0 false)).

(** A string with every occurrence of a character removed, and whether a
    character occurs in a string. *)
Fixpoint strip (c : ascii) (s : string) : string :=
  match s with
  | EmptyString => EmptyString
  | String d s' => if Ascii.eqb d c then strip c s' else String d (strip c s')
  end.
Fixpoint has_char (c : ascii) (s : string) : bool :=
  match s with
  | EmptyString => false
  | String d s' => Ascii.eqb d c || has_char c s'
  end.

(** [x in l] for a list of strings. *)
Definition str_in (x : string) (l : list string) : bool :=
  existsb (String.eqb x) l.

End Py.
Export Py.

(** ** engine.py *)

Module Engine.

(** The lifecycle events of section 3 of the specification. *)
Inductive event : Type :=
| on_register
| before_launch | after_launch
| before_stage | after_stage
| before_train_epoch | after_train_epoch
| before_val_epoch | after_val_epoch
| before_train_step | after_train_step
| before_val_step | after_val_step.

(** Modelled from the spec: the [Hook] base class ([hooks/base.py]) is not
    part of the sources.  A hook has a name, by which the engine tells hooks
    apart, and one callback per lifecycle event.  A callback observes the
    engine through its read-only getters (the integer attributes) and either
    returns ([None]) or raises ([Some payload]); the hook's private state is
    not modelled. *)
Record Hook : Type := {
  name : string;
  callback : event -> gmap string Z -> option string;
}.

(** Modelled from the spec: [Hook.__eq__], used by [hook in self._hooks]
    and [before in self._hooks].  Hooks are unique by name; a string matches
    the hook of that name; [None] matches no hook. *)
Definition hook_eqb (h1 h2 : Hook) : bool := String.eqb (name h1) (name h2).
Definition name_eqb (before : option string) (h : Hook) : bool :=
  match before with
  | None => false
  | Some b => String.eqb b (name h)
  end.

(** [hook in l], [before in l], [l.index(before)], [l.insert(idx, hook)]. *)
Definition hook_in (h : Hook) (l : list Hook) : bool := existsb (hook_eqb h) l.
Definition name_in (before : option string) (l : list Hook) : bool :=
  existsb (name_eqb before) l.
Fixpoint index (before : option string) (l : list Hook) : option nat :=
  match l with
  | [] => None
  | h :: l' => if name_eqb before h then Some O else S <$> index before l'
  end.
Definition list_insert_at {A} (idx : nat) (x : A) (l : list A) : list A :=
  take idx l ++ x :: drop idx l.

(** The model: only its train/eval switch is visible to the engine. *)
Record Model : Type := { training : bool }.

(** An [Engine] object.  The integer attributes ([_stage], [_epoch],
    [_iter], ...) live in the instance dictionary [attrs]: reading an
    attribute that was never assigned raises [AttributeError].  [trace] is
    a ghost field recording every hook callback invocation, in order. *)
Record Engine : Type := {
  _hooks : list Hook;
  attrs : gmap string Z;
  model : Model;
  data_loaders : list (string * Z);
  scheduler : string;
  work_dir : option string;
  trace : list (string * event);
}.

Definition set_hooks (l : list Hook) (e : Engine) : Engine :=
  {| _hooks := l; attrs := attrs e; model := model e;
     data_loaders := data_loaders e; scheduler := scheduler e;
     work_dir := work_dir e; trace := trace e |}.
Definition set_attr (a : string) (v : Z) (e : Engine) : Engine :=
  {| _hooks := _hooks e; attrs := <[a:=v]> (attrs e); model := model e;
     data_loaders := data_loaders e; scheduler := scheduler e;
     work_dir := work_dir e; trace := trace e |}.
Definition set_model (m : Model) (e : Engine) : Engine :=
  {| _hooks := _hooks e; attrs := attrs e; model := m;
     data_loaders := data_loaders e; scheduler := scheduler e;
     work_dir := work_dir e; trace := trace e |}.
Definition log_call (c : string * event) (e : Engine) : Engine :=
  {| _hooks := _hooks e; attrs := attrs e; model := model e;
     data_loaders := data_loaders e; scheduler := scheduler e;
     work_dir := work_dir e; trace := trace e ++ [c] |}.

Definition with_trace (t : list (string * event)) (e : Engine) : Engine :=
  {| _hooks := _hooks e; attrs := attrs e; model := model e;
     data_loaders := data_loaders e; scheduler := scheduler e;
     work_dir := work_dir e; trace := t |}.

(** [@nncore.bind_getter('hooks', 'stage', 'epoch', 'iter')]. *)
Definition hooks (e : Engine) : list Hook := _hooks e.
Definition stage (e : Engine) : option Z := attrs e !! "_stage".
Definition epoch (e : Engine) : option Z := attrs e !! "_epoch".
Definition iter (e : Engine) : option Z := attrs e !! "_iter".

(** [self.<attr> += 1]. *)
Definition incr (a : string) : M Engine unit := fun e =>
  match attrs e !! a with
  | Some n => (Return tt, set_attr a (n + 1) e)
  | None =>
      (Raise (AttributeError
                ("'Engine' object has no attribute '" +:+ a +:+ "'")), e)
  end.

(** [hook.<ev>(self)]: one callback invocation. *)
Definition invoke (h : Hook) (ev : event) : M Engine unit := fun e =>
  let e' := log_call (name h, ev) e in
  match callback h ev (attrs e) with
  | None => (Return tt, e')
  | Some payload => (Raise (HookRaised (name h) payload), e')
  end.

(** Modelled from the spec: the event methods that [@bind_hooks]
    ([engine/utils.py], not part of the sources) attaches to the class.
    Section 4.2: every event, "before" or "after", is dispatched to the
    registered hooks in the order of the hook list; section 4.3: a callback
    that raises aborts the dispatch. *)
Definition call_hook (ev : event) : M Engine unit := fun e =>
  for_each (_hooks e) (fun h => invoke h ev) e.

(** The hooks a dispatch of [ev] reaches, given what the callbacks observe:
    all of them up to and including the first whose callback raises; and the
    exception that ends the dispatch, if any. *)
Fixpoint reached (ev : event) (obs : gmap string Z) (hs : list Hook)
  : list Hook :=
  match hs with
  | [] => []
  | h :: hs' =>
      h :: match callback h ev obs with
           | None => reached ev obs hs'
           | Some _ => []
           end
  end.
Fixpoint first_raise (ev : event) (obs : gmap string Z) (hs : list Hook)
  : option exn :=
  match hs with
  | [] => None
  | h :: hs' =>
      match callback h ev obs with
      | None => first_raise ev obs hs'
      | Some payload => Some (HookRaised (name h) payload)
      end
  end.
Definition quiet (ev : event) (e : Engine) : Prop :=
  Forall (fun h => callback h ev (attrs e) = None) (_hooks e).

(** The names of the hooks whose callbacks one dispatch of [ev] invokes,
    in the order of invocation, read off the trace. *)
Definition dispatched (ev : event) (e : Engine) : list string :=
  fst <$> drop (length (trace e)) (trace (snd (call_hook ev e))).

(** The events that bracket a piece of work. *)
Inductive work : Type :=
| Launch | Stage | TrainEpoch | ValEpoch | TrainStep | ValStep.
Definition before (w : work) : event :=
  match w with
  | Launch => before_launch | Stage => before_stage
  | TrainEpoch => before_train_epoch | ValEpoch => before_val_epoch
  | TrainStep => before_train_step | ValStep => before_val_step
  end.
Definition after (w : work) : event :=
  match w with
  | Launch => after_launch | Stage => after_stage
  | TrainEpoch => after_train_epoch | ValEpoch => after_val_epoch
  | TrainStep => after_train_step | ValStep => after_val_step
  end.

(** What the first argument of [register_hook] can be. *)
Record Config : Type := { type : string; params : list (string * string) }.
Inductive HookArg : Type :=
| ArgHook (h : Hook)
| ArgDict (cfg : Config)
| ArgOther (type_name : string).

(** Modelled from the spec: [nncore.build_object] and the [HOOKS] registry
    (section 4.1).  The registry maps a type name to a factory; an unknown
    name is an error. *)
Definition Registry : Type := list (string * (Config -> Hook)).
Fixpoint registry_get (r : Registry) (k : string) : option (Config -> Hook) :=
  match r with
  | [] => None
  | (k', f) :: r' => if String.eqb k k' then Some f else registry_get r' k
  end.
Definition build_object (cfg : Config) (r : Registry) : outcome Hook :=
  match registry_get r (type cfg) with
  | Some f => Return (f cfg)
  | None => Raise (KeyError (type cfg))
  end.

(** [str(before)] inside the "not found" message. *)
Definition show_before (before : option string) : string :=
  match before with
  | None => "None"
  | Some b => b
  end.

Section WithRegistry.

Variable HOOKS : Registry.

(** Lines 37-41 of [register_hook]: the argument becomes a [Hook]. *)
Definition resolve (hook : HookArg) : outcome Hook :=
  match hook with
  | ArgDict cfg => build_object cfg HOOKS
  | ArgHook h => Return h
  | ArgOther ty =>
      Raise (TypeError ("hook must be a Hook or dict, but got " +:+ ty))
  end.

(** [Engine.register_hook], lines 27-53. *)
Definition register_hook (hook : HookArg) (before : option string)
  : M Engine unit :=
  hook <- lift (resolve hook) ;;
  self <- get ;;
  if hook_in hook (_hooks self) then
    raise (ValueError ("hook '" +:+ name hook +:+ "' exists"))
  else if negb (name_in before (_hooks self)) then
    raise (ValueError ("hook '" +:+ show_before before +:+ "' not found"))
  else
    invoke hook on_register ;;
    match before with
    | Some _ =>
        self <- get ;;
        match index before (_hooks self) with
        | Some idx => modify (set_hooks (list_insert_at idx hook (_hooks self)))
        | None => raise (ValueError "x is not in list")
        end
    | None => modify (fun self => set_hooks (_hooks self ++ [hook]) self)
    end.

(** The object [__init__] receives: nothing assigned yet. *)
Definition blank : Engine :=
  {| _hooks := []; attrs := ∅; model := {| training := false |};
     data_loaders := []; scheduler := ""; work_dir := None; trace := [] |}.

(** Lines 13-17 and lines 22-25 of [__init__]. *)
Definition init_fields (m : Model) (dl : list (string * Z)) (sch : string)
    (wd : option string) (e : Engine) : Engine :=
  {| _hooks := []; attrs := attrs e; model := m; data_loaders := dl;
     scheduler := sch; work_dir := wd; trace := trace e |}.
Definition init_counters (e : Engine) : Engine :=
  set_attr "_iter" 0 (set_attr "_epoch" 0 (set_attr "_stage" 0 (set_hooks [] e))).

(** [Engine.__init__], lines 12-25. *)
Definition __init__ (m : Model) (dl : list (string * Z)) (sch : string)
    (hooks : HookArg) (wd : option string) : M Engine unit :=
  modify (init_fields m dl sch wd) ;;
  register_hook hooks None ;;
  modify init_counters.

(** A sequence of [register_hook] calls; a call that raises leaves the
    engine as the exception found it and the next call goes on from there. *)
Definition register_all (calls : list (HookArg * option string)) (e : Engine)
  : Engine :=
  fold_left (fun e c => snd (register_hook (fst c) (snd c) e)) calls e.

End WithRegistry.

(** Lines 55-89. *)
Definition train_step : M Engine unit :=
  call_hook before_train_step ;;
  call_hook after_train_step ;;
  incr "_step".

Definition val_step : M Engine unit :=
  call_hook before_val_step ;;
  call_hook after_val_step.

Definition train_epoch : M Engine unit :=
  modify (set_model {| training := true |}) ;;
  call_hook before_train_epoch ;;
  call_hook after_train_epoch ;;
  incr "_epoch".

Definition val_epoch : M Engine unit :=
  modify (set_model {| training := false |}) ;;
  call_hook before_val_epoch ;;
  call_hook after_val_epoch.

Definition train_stage : M Engine unit :=
  call_hook before_stage ;;
  call_hook after_stage ;;
  incr "_stage".

Definition launch : M Engine unit :=
  call_hook before_launch ;;
  call_hook after_launch.

(** The state lines 13-25 are written to leave behind, were the
    registration of line 20 to return: no hooks, counters at 0. *)
Definition fresh : Engine := init_counters blank.

(** Sample data: a hook whose callbacks all return, a hook whose callback
    for one event raises, and an engine in the middle of a run. *)
Definition silent (n : string) : Hook :=
  {| name := n; callback := fun _ _ => None |}.
Definition sample : Engine :=
  set_attr "_iter" 7 (set_attr "_epoch" 3 (set_attr "_stage" 1
    (set_hooks [silent "timer"; silent "checkpoint"] blank))).


(** A hook whose callback for [before_train_epoch] raises. *)
Definition raising (n : string) : Hook :=
  {| name := n;
     callback := fun ev _ => match ev with
                             | before_train_epoch => Some "disk full"
                             | _ => None
                             end |}.

(** An engine whose second hook fails before a training epoch. *)
Definition faulty : Engine :=
  set_hooks [silent "timer"; raising "checkpoint"; silent "writer"] sample.

(** The method that does each piece of work. *)
Definition run (w : work) : M Engine unit :=
  match w with
  | Launch => launch
  | Stage => train_stage
  | TrainEpoch => train_epoch
  | ValEpoch => val_epoch
  | TrainStep => train_step
  | ValStep => val_step
  end.

(** The attribute a piece of work increments, if any (lines 59, 71, 83). *)
Definition counter_of (w : work) : option string :=
  match w with
  | Stage => Some "_stage"
  | TrainEpoch => Some "_epoch"
  | TrainStep => Some "_step"
  | Launch | ValEpoch | ValStep => None
  end.

(** The engine as the dispatches of a piece of work find it: the two epoch
    methods switch the model's mode first (lines 67 and 74). *)
Definition prepared (w : work) (e : Engine) : Engine :=
  match w with
  | TrainEpoch => set_model {| training := true |} e
  | ValEpoch => set_model {| training := false |} e
  | _ => e
  end.

(** The trace entries of a dispatch of [ev] that reaches the hooks [hs]. *)
Definition entries (ev : event) (hs : list Hook) : list (string * event) :=
  (fun h => (name h, ev)) <$> hs.

(** The trace entries a computation adds. *)
Definition new_trace (e e' : Engine) : list (string * event) :=
  drop (length (trace e)) (trace e').

End Engine.

(** ** hooks/events.py *)

Module Events.

(** What a buffer series holds: a number, a dict of numbers, or some other
    object (the payload of a rich-media metric). *)
Inductive value : Type :=
| VNum (x : float)
| VDict (d : list (string * float))
| VObj (payload : string).

(** Modelled from the spec: the [Buffer] class is not part of the sources
    (section 4.4).  A buffer maps keys, in insertion order, to the history
    of the values recorded under them; [clear] drops the history of a key
    and keeps the key; [latest] is the most recent value; [mean] and [avg]
    are the arithmetic mean of the last [window_size] entries, or of all of
    them when there are fewer; a key never recorded is an error.  A series
    that [clear] has emptied has no latest value and no mean: the model
    raises there too. *)
Definition Buffer : Type := list (string * list value).

Definition keys (b : Buffer) : list string := fst <$> b.

Fixpoint history (b : Buffer) (k : string) : option (list value) :=
  match b with
  | [] => None
  | (k', h) :: b' => if String.eqb k' k then Some h else history b' k
  end.

Definition clear (k : string) (b : Buffer) : Buffer :=
  (fun kv => if String.eqb (fst kv) k then (fst kv, []) else kv) <$> b.

Definition latest (b : Buffer) (k : string) : outcome value :=
  match history b k with
  | None => Raise (KeyError k)
  | Some h =>
      match last h with
      | Some v => Return v
      | None => Raise (IndexError k)
      end
  end.

Definition window (window_size : Z) (h : list value) : list value :=
  drop (length h - Z.to_nat window_size)%nat h.

Fixpoint all_nums (vs : list value) : option (list float) :=
  match vs with
  | [] => Some []
  | VNum x :: vs' => cons x <$> all_nums vs'
  | _ :: _ => None
  end.
Fixpoint all_dicts (vs : list value) : option (list (list (string * float))) :=
  match vs with
  | [] => Some []
  | VDict d :: vs' => cons d <$> all_dicts vs'
  | _ :: _ => None
  end.

(** The metrics snapshot of [Writer.collect_metrics]. *)
Inductive lr_metric : Type :=
| LrOne (lr : float)
| LrMany (lrs : list float).
Record Metrics : Type := {
  m_mode : string;
  m_epoch : Z;
  m_iter : Z;
  m_lr : lr_metric;
  m_time : option value;
  m_data_time : option value;
}.

(** What the writers emit.  A console line keeps the arguments of the
    format string instead of the formatted text. *)
Inductive LogLine : Type :=
| TrainLine (epoch iter len : Z) (lr : float) (eta : Z)
    (time data_time : float) (memory : option Z) (ext : list (string * float))
| ValLine (mode : string) (epoch len : Z) (ext : list (string * float)).
Record JsonRecord : Type := {
  j_metrics : Metrics;
  j_extra : list (string * value);
}.
Inductive BoardCall : Type :=
| Add (func tag : string) (record : value) (global_step : Z).

(** The writers.  A [TensorboardWriter] has its [_writer] attribute only
    once [open] has run. *)
Inductive Writer : Type :=
| CommandLineWriter
| JSONWriter (_filename : string)
| TensorboardWriter (has_writer : bool).

(** The engine as the writers and the hook see it: the attributes they
    read, the buffer, and the sinks they write to.  [lrs] are the learning
    rates of [engine.optimizer.param_groups]; [data_loader_len] is
    [len(engine.data_loader)]; [cuda_memory] is what the CUDA memory query
    yields, in MB, when CUDA is available; [is_master] tells whether this
    is the master process.  [calls] is a ghost field recording every call
    [w.write(engine, window_size)] that [EventWriterHook] makes. *)
Record engine : Type := {
  mode : string;
  epoch : Z;
  iter : Z;
  iter_in_epoch : Z;
  start_iter : Z;
  max_iters : Z;
  data_loader_len : Z;
  lrs : list float;
  work_dir : option string;
  cuda_memory : option Z;
  is_master : bool;
  buffer : Buffer;
  logger : list LogLine;
  files : list (string * JsonRecord);
  board : list BoardCall;
  calls : list (Writer * Z);
}.

Definition set_buffer (b : Buffer) (e : engine) : engine :=
  {| mode := mode e; epoch := epoch e; iter := iter e;
     iter_in_epoch := iter_in_epoch e; start_iter := start_iter e;
     max_iters := max_iters e; data_loader_len := data_loader_len e;
     lrs := lrs e; work_dir := work_dir e; cuda_memory := cuda_memory e;
     is_master := is_master e; buffer := b; logger := logger e;
     files := files e; board := board e; calls := calls e |}.
Definition logger_info (l : LogLine) (e : engine) : engine :=
  {| mode := mode e; epoch := epoch e; iter := iter e;
     iter_in_epoch := iter_in_epoch e; start_iter := start_iter e;
     max_iters := max_iters e; data_loader_len := data_loader_len e;
     lrs := lrs e; work_dir := work_dir e; cuda_memory := cuda_memory e;
     is_master := is_master e; buffer := buffer e; logger := logger e ++ [l];
     files := files e; board := board e; calls := calls e |}.
Definition file_append (f : string) (r : JsonRecord) (e : engine) : engine :=
  {| mode := mode e; epoch := epoch e; iter := iter e;
     iter_in_epoch := iter_in_epoch e; start_iter := start_iter e;
     max_iters := max_iters e; data_loader_len := data_loader_len e;
     lrs := lrs e; work_dir := work_dir e; cuda_memory := cuda_memory e;
     is_master := is_master e; buffer := buffer e; logger := logger e;
     files := files e ++ [(f, r)]; board := board e; calls := calls e |}.
Definition board_add (c : BoardCall) (e : engine) : engine :=
  {| mode := mode e; epoch := epoch e; iter := iter e;
     iter_in_epoch := iter_in_epoch e; start_iter := start_iter e;
     max_iters := max_iters e; data_loader_len := data_loader_len e;
     lrs := lrs e; work_dir := work_dir e; cuda_memory := cuda_memory e;
     is_master := is_master e; buffer := buffer e; logger := logger e;
     files := files e; board := board e ++ [c]; calls := calls e |}.
Definition note_call (c : Writer * Z) (e : engine) : engine :=
  {| mode := mode e; epoch := epoch e; iter := iter e;
     iter_in_epoch := iter_in_epoch e; start_iter := start_iter e;
     max_iters := max_iters e; data_loader_len := data_loader_len e;
     lrs := lrs e; work_dir := work_dir e; cuda_memory := cuda_memory e;
     is_master := is_master e; buffer := buffer e; logger := logger e;
     files := files e; board := board e; calls := calls e ++ [c] |}.

(** The rich-media types of [TensorboardWriter.write], lines 178-181. *)
Definition log_types : list string :=
  ["histogram"; "image"; "images"; "figure"; "video"; "audio"; "text"].

(** Modelled from the spec: [@master_only] ([comm.py] is not part of the
    sources).  Section 5: an operation marked master-only runs on the
    master process and does nothing on the others. *)
Definition master_only (f : M engine unit) : M engine unit := fun e =>
  if is_master e then f e else (Return tt, e).

(** Modelled from the spec: [Hook.last_iter_in_epoch] and
    [Hook.every_n_iters] ([hooks/base.py] is not part of the sources).
    Section 8: the iteration that has just run is iteration [N], counting
    from 1, as [collect_metrics] displays it; it is the last of its epoch
    when it is the [len(data_loader)]-th since the epoch started, and it is
    on the interval when [(N - epoch_start_iter) mod n == 0]. *)
Definition iteration (e : engine) : Z := iter e + 1.
Definition epoch_start_iter (e : engine) : Z := iter e - iter_in_epoch e.
Definition last_iter_in_epoch (e : engine) : bool :=
  iteration e - epoch_start_iter e =? data_loader_len e.
Definition every_n_iters (e : engine) (n : Z) : bool :=
  (iteration e - epoch_start_iter e) mod n =? 0.

Section WithBuiltins.

(** [round(x, 5)] of the Python runtime, and the mean of a series of
    dicts, which neither the sources nor the specification pin down. *)
Variable round5 : float -> float.
Variable dict_mean : list (list (string * float)) -> list (string * float).

Definition mean (b : Buffer) (k : string) (window_size : Z) : outcome value :=
  match history b k with
  | None => Raise (KeyError k)
  | Some h =>
      let vs := window window_size h in
      match vs with
      | [] => Raise (ZeroDivisionError k)
      | _ =>
          match all_nums vs, all_dicts vs with
          | Some xs, _ => Return (VNum (float_mean xs))
          | None, Some ds => Return (VDict (dict_mean ds))
          | None, None => Raise (TypeError k)
          end
      end
  end.
Definition avg := mean.

(** [Writer.collect_metrics], lines 19-42. *)
Definition collect_metrics (window_size : Z) : M engine Metrics :=
  e <- get ;;
  let lr := match lrs e with
            | [x] => LrOne (round5 x)
            | xs => LrMany (round5 <$> xs)
            end in
  if String.eqb (mode e) "train" then
    time <- lift (mean (buffer e) "_iter_time" window_size) ;;
    data_time <- lift (mean (buffer e) "_data_time" window_size) ;;
    ret {| m_mode := mode e; m_epoch := epoch e + 1;
           m_iter := iter_in_epoch e + 1; m_lr := lr;
           m_time := Some time; m_data_time := Some data_time |}
  else
    ret {| m_mode := mode e; m_epoch := epoch e; m_iter := iter_in_epoch e;
           m_lr := lr; m_time := None; m_data_time := None |}.

(** Lines 64-68 of [CommandLineWriter.write]: the ETA, in seconds. *)
Definition eta : M engine Z :=
  e <- get ;;
  total_time <- lift (latest (buffer e) "_total_time") ;;
  let num_iter_passed := iter e + 1 - start_iter e in
  let num_iter_left := max_iters e - iter e - 1 in
  match total_time with
  | VNum t =>
      left <- lift (float_of_int num_iter_left) ;;
      passed <- lift (float_of_int num_iter_passed) ;;
      q <- lift (float_truediv (PrimFloat.mul left t) passed) ;;
      seconds <- lift (int_of_float q) ;;
      lift (timedelta seconds)
  | _ => raise (TypeError "unsupported operand type(s)")
  end.

(** The loop of lines 85-96: the entries that follow the console line. *)
Definition ext_of_key (window_size : Z) (key : string)
  : M engine (list (string * float)) :=
  e <- get ;;
  if startswith "_" key || endswith "_" key then ret []
  else
    v <- lift (latest (buffer e) key) ;;
    match v with
    | VDict _ =>
        data <- lift (avg (buffer e) key window_size) ;;
        match data with
        | VDict d => ret ((fun kv => (key +:+ "_" +:+ fst kv, snd kv)) <$> d)
        | _ => raise (AttributeError "items")
        end
    | _ =>
        a <- lift (avg (buffer e) key window_size) ;;
        match a with
        | VNum x => ret [(key, x)]
        | _ => raise (TypeError "unsupported format string")
        end
    end.

Fixpoint collect {A} (ks : list string) (f : string -> M engine (list A))
  : M engine (list A) :=
  match ks with
  | [] => ret []
  | k :: ks' => xs <- f k ;; ys <- collect ks' f ;; ret (xs ++ ys)
  end.

(** [CommandLineWriter.write], lines 60-99. *)
Definition CommandLineWriter_write (window_size : Z) : M engine unit :=
  metrics <- collect_metrics window_size ;;
  e <- get ;;
  head <-
    (if String.eqb (mode e) "train" then
       seconds <- eta ;;
       match m_lr metrics, m_time metrics, m_data_time metrics with
       | LrOne lr, Some (VNum time), Some (VNum data_time) =>
           ret (TrainLine (m_epoch metrics) (m_iter metrics)
                  (data_loader_len e) lr seconds time data_time (cuda_memory e))
       | _, _, _ => raise (TypeError "unsupported format string")
       end
     else
       ret (ValLine (mode e) (m_epoch metrics) (data_loader_len e))) ;;
  ext <- collect (keys (buffer e)) (ext_of_key window_size) ;;
  modify (logger_info (head ext)).

(** The loop of lines 115-124 of [JSONWriter.write]. *)
Definition json_of_key (window_size : Z) (key : string)
  : M engine (list (string * value)) :=
  e <- get ;;
  if startswith "_" key || endswith "_" key then ret []
  else
    v <- lift (latest (buffer e) key) ;;
    match v with
    | VDict _ =>
        data <- lift (avg (buffer e) key window_size) ;;
        match data with
        | VDict d =>
            ret ((fun kv => (key +:+ "_" +:+ fst kv, VNum (snd kv))) <$> d)
        | _ => raise (AttributeError "items")
        end
    | _ =>
        a <- lift (avg (buffer e) key window_size) ;;
        ret [(key, a)]
    end.

(** [JSONWriter.write], lines 112-129. *)
Definition JSONWriter_write (_filename : string) (window_size : Z)
  : M engine unit :=
  metrics <- collect_metrics window_size ;;
  e <- get ;;
  extra <- collect (keys (buffer e)) (json_of_key window_size) ;;
  match work_dir e with
  | Some d =>
      modify (file_append (d +:+ "/" +:+ _filename)
                {| j_metrics := metrics; j_extra := extra |})
  | None => raise (TypeError "expected str, bytes or os.PathLike object")
  end.

(** The body of the loop of [TensorboardWriter.write], lines 171-198. *)
Definition board_of_key (has_writer : bool) (window_size : Z) (key : string)
  : M engine unit :=
  e <- get ;;
  if startswith "_" key then ret tt
  else if endswith "_" key then
    let tokens := split "_" key in
    match nth_from_end 2 tokens with
    | None => raise (IndexError "list index out of range")
    | Some log_type =>
        if negb (str_in log_type log_types) then
          raise (TypeError ("unsupported log type: '" +:+ log_type +:+ "'"))
        else
          let tag := join (drop_last 2 tokens) +:+ "/" +:+ mode e in
          record <- lift (latest (buffer e) key) ;;
          if has_writer then
            modify (board_add (Add ("add_" +:+ log_type) tag record (iter e)))
          else raise (AttributeError "_writer")
    end
  else
    let tag := key +:+ "/" +:+ mode e in
    record <- lift (avg (buffer e) key window_size) ;;
    if has_writer then
      match record with
      | VDict _ => modify (board_add (Add "add_scalars" tag record (iter e)))
      | _ => modify (board_add (Add "add_scalar" tag record (iter e)))
      end
    else raise (AttributeError "_writer").

(** [TensorboardWriter.write], lines 169-198. *)
Definition TensorboardWriter_write (has_writer : bool) (window_size : Z)
  : M engine unit :=
  e <- get ;;
  for_each (keys (buffer e)) (board_of_key has_writer window_size).

(** [w.write(engine, window_size)]. *)
Definition write (w : Writer) (window_size : Z) : M engine unit :=
  match w with
  | CommandLineWriter => CommandLineWriter_write window_size
  | JSONWriter f => JSONWriter_write f window_size
  | TensorboardWriter hw => TensorboardWriter_write hw window_size
  end.

(** [EventWriterHook], lines 201-240. *)
Record EventWriterHook : Type := {
  _interval : Z;
  _writers : list Writer;
}.

Definition _write (self : EventWriterHook) : M engine unit :=
  for_each (_writers self)
    (fun w => modify (note_call (w, _interval self)) ;;
              write w (_interval self)).

Definition _empty_buffer : M engine unit :=
  e <- get ;;
  for_each (keys (buffer e))
    (fun key => if negb (startswith "_" key)
                then modify (fun e => set_buffer (clear key (buffer e)) e)
                else ret tt).

Definition after_train_iter (self : EventWriterHook) : M engine unit :=
  master_only
    (e <- get ;;
     if negb (last_iter_in_epoch e) && negb (every_n_iters e (_interval self))
     then ret tt
     else _write self ;; _empty_buffer).

Definition after_val_epoch (self : EventWriterHook) : M engine unit :=
  master_only (_write self ;; _empty_buffer).

(** The two statements both callbacks end with: write, then empty. *)
Definition fire (self : EventWriterHook) : M engine unit :=
  _write self ;; _empty_buffer.

(** The calls [w.write(...)] made between two states of the engine. *)
Definition new_calls (e e' : engine) : list (Writer * Z) :=
  drop (length (calls e)) (calls e').

(** Whether [after_train_iter] makes its writers write. *)
Definition invokes_writers (self : EventWriterHook) (e : engine) : bool :=
  match new_calls e (snd (after_train_iter self e)) with
  | [] => false
  | _ :: _ => true
  end.

(** The ETA as the specification words it (section 4.5): the remaining
    iterations times the mean iteration time, over the iterations elapsed
    since the start, rounded to whole seconds; the mean iteration time is
    the moving average of the per-iteration time over the window. *)
Definition eta_as_specified (window_size : Z) : M engine Z :=
  e <- get ;;
  mean_iter_time <- lift (mean (buffer e) "_iter_time" window_size) ;;
  let remaining_iters := max_iters e - iter e - 1 in
  let iters_elapsed := iter e + 1 - start_iter e in
  match mean_iter_time with
  | VNum t =>
      left <- lift (float_of_int remaining_iters) ;;
      passed <- lift (float_of_int iters_elapsed) ;;
      q <- lift (float_truediv (PrimFloat.mul left t) passed) ;;
      seconds <- lift (round_float q) ;;
      lift (timedelta seconds)
  | _ => raise (TypeError "unsupported operand type(s)")
  end.

End WithBuiltins.

(** A computation frames the buffer and the record of calls when it
    leaves both as it found them, however it ends. *)
Definition frames {A} (c : M engine A) : Prop :=
  forall e, buffer (snd (c e)) = buffer e /\ calls (snd (c e)) = calls e.

(** A computation only reads when it leaves the engine as it found it. *)
Definition reads {A} (c : M engine A) : Prop := forall e, snd (c e) = e.

(** The buffer once every key of [ks] without the leading marker has been
    cleared, and the buffer with every such entry cleared. *)
Definition clear_keys (ks : list string) (b : Buffer) : Buffer :=
  fold_left (fun b key => if negb (startswith "_" key) then clear key b else b)
            ks b.
Definition emptied (b : Buffer) : Buffer :=
  (fun kv => if startswith "_" (fst kv) then kv else (fst kv, [])) <$> b.

(** A computation keeps an observation [f] of the engine when [f] reads
    the same after it as before, however it ends. *)
Definition keeps {A B} (f : engine -> B) (c : M engine A) : Prop :=
  forall e, f (snd (c e)) = f e.

(** What the writers read of the engine. *)
Definition inputs (e : engine) :=
  (mode e, epoch e, iter e, iter_in_epoch e, start_iter e, max_iters e,
   data_loader_len e, lrs e, work_dir e, cuda_memory e, is_master e, buffer e).

(** A key that the console and file writers report: no leading and no
    trailing marker (lines 87 and 116). *)
Definition unmarked (key : string) : bool :=
  negb (startswith "_" key || endswith "_" key).

(** The keys the dashboard writer does not skip (line 171), and the tag
    it gives a key (lines 185 and 190). *)
Definition visible (ks : list string) : list string :=
  List.filter (fun key => negb (startswith "_" key)) ks.
Definition tag_of (e : engine) (key : string) : string :=
  if endswith "_" key
  then join (drop_last 2 (split "_" key)) +:+ "/" +:+ mode e
  else key +:+ "/" +:+ mode e.
Definition call_tag (c : BoardCall) : string :=
  match c with Add _ tag _ _ => tag end.
Definition call_step (c : BoardCall) : Z :=
  match c with Add _ _ _ global_step => global_step end.

(** Sample data: a run of 11 iterations in epochs of 5, seen while
    iteration [n] of the first epoch is being completed, on the master
    process; the same on another process; a hook with interval 2. *)
Definition sample_buffer : Buffer :=
  [("_total_time", [VNum 0.25; VNum 0.5; VNum 0.75; VNum 1]);
   ("_iter_time", [VNum 0.25; VNum 0.25; VNum 0.25; VNum 0.25]);
   ("_data_time", [VNum 0.125; VNum 0.125; VNum 0.125; VNum 0.125]);
   ("loss", [VNum 2; VNum 4]);
   ("loss_histogram_", [VObj "weights"])].
Definition at_iteration (n : Z) : engine :=
  {| mode := "train"; epoch := 0; iter := n - 1; iter_in_epoch := n - 1;
     start_iter := 0; max_iters := 11; data_loader_len := 5;
     lrs := [0.5%float]; work_dir := Some "work"; cuda_memory := None;
     is_master := true; buffer := sample_buffer; logger := []; files := [];
     board := []; calls := [] |}.
Definition on_worker (e : engine) : engine :=
  {| mode := mode e; epoch := epoch e; iter := iter e;
     iter_in_epoch := iter_in_epoch e; start_iter := start_iter e;
     max_iters := max_iters e; data_loader_len := data_loader_len e;
     lrs := lrs e; work_dir := work_dir e; cuda_memory := cuda_memory e;
     is_master := false; buffer := buffer e; logger := logger e;
     files := files e; board := board e; calls := calls e |}.
Definition sample_hook : EventWriterHook :=
  {| _interval := 2; _writers := [TensorboardWriter true; CommandLineWriter] |}.
Definition no_round (x : float) : float := x.
Definition no_dicts (ds : list (list (string * float))) : list (string * float) :=
  [].

End Events.

(** ** Properties of engine.py *)

Module EngineFacts.
Import Engine.

(** *** The monad and the hook list *)

Lemma name_in_None l : name_in None l = false.
Proof. induction l as [|h l IH]; simpl; auto. Qed.

Lemma name_in_index before l :
  name_in before l = true -> exists idx, index before l = Some idx /\ (idx < length l)%nat.
Proof.
  induction l as [|h l IH]; simpl; [discriminate|].
  destruct (name_eqb before h); simpl.
  - intros _. exists O. split; [reflexivity | lia].
  - intros H. destruct (IH H) as (idx & -> & Hlt). exists (S idx).
    split; [reflexivity | lia].
Qed.

Lemma index_name_in before l idx :
  index before l = Some idx -> name_in before l = true.
Proof.
  revert idx. induction l as [|h l IH]; intros idx; cbn; [discriminate|].
  destruct (name_eqb before h); [reflexivity|]. cbn.
  destruct (index before l) as [i|]; [|discriminate]. intros _. now apply (IH i).
Qed.

Lemma append_cons c a b : String c a +:+ b = String c (a +:+ b).
Proof. reflexivity. Qed.

Lemma append_not_nil a c b : a +:+ String c b <> "".
Proof. destruct a; discriminate. Qed.

Lemma last_char_app a c b : last_char (a +:+ String c b) = last_char (String c b).
Proof.
  induction a as [|d a IH]; [reflexivity|].
  rewrite append_cons. cbn [last_char]. rewrite IH.
  destruct (a +:+ String c b) eqn:E; [|reflexivity].
  now apply append_not_nil in E.
Qed.

Lemma last_char_cons d t : t <> "" -> last_char (String d t) = last_char t.
Proof. destruct t; [congruence | reflexivity]. Qed.

Lemma last_char_hook n c u :
  last_char ("hook '" +:+ n +:+ String c u) = last_char (String c u).
Proof.
  rewrite <- (last_char_app n c u).
  change ("hook '" +:+ n +:+ String c u)
    with (String "h" (String "o" (String "o" (String "k" (String " "
            (String "'" (n +:+ String c u))))))).
  rewrite !last_char_cons; auto using append_not_nil; discriminate.
Qed.

Lemma exists_not_found n b :
  "hook '" +:+ n +:+ "' exists" <> "hook '" +:+ b +:+ "' not found".
Proof.
  intros H. apply (f_equal last_char) in H.
  rewrite !last_char_hook in H. discriminate.
Qed.

(** *** Dispatch only extends the trace *)

Lemma with_trace_id e : with_trace (trace e) e = e.
Proof. now destruct e. Qed.

Lemma for_each_invoke ev hs e :
  for_each hs (fun h => invoke h ev) e =
    (match first_raise ev (attrs e) hs with
     | None => Return tt
     | Some x => Raise x
     end,
     with_trace (trace e ++ ((fun h => (name h, ev)) <$> reached ev (attrs e) hs)) e).
Proof.
  revert e. induction hs as [|h hs IH]; intros e.
  - cbn. now rewrite app_nil_r, with_trace_id.
  - cbn [for_each reached first_raise]. unfold bind at 1. unfold invoke at 1.
    destruct (callback h ev (attrs e)) as [payload|] eqn:Hcb.
    + cbn. f_equal.
    + rewrite IH. cbn. f_equal. unfold with_trace; cbn. f_equal.
      now rewrite <- app_assoc.
Qed.

Lemma call_hook_eq ev e :
  call_hook ev e =
    (match first_raise ev (attrs e) (_hooks e) with
     | None => Return tt
     | Some x => Raise x
     end,
     with_trace (trace e ++
                 ((fun h => (name h, ev)) <$> reached ev (attrs e) (_hooks e))) e).
Proof. apply for_each_invoke. Qed.

Lemma quiet_first_raise ev obs hs :
  Forall (fun h => callback h ev obs = None) hs ->
  first_raise ev obs hs = None /\ reached ev obs hs = hs.
Proof.
  induction 1 as [|h hs Hh _ [IH1 IH2]]; [now split|].
  cbn. rewrite Hh. now rewrite IH1, IH2.
Qed.

Lemma call_hook_quiet ev e :
  quiet ev e ->
  call_hook ev e =
    (Return tt, with_trace (trace e ++ ((fun h => (name h, ev)) <$> _hooks e)) e).
Proof.
  intros Hq. rewrite call_hook_eq.
  destruct (quiet_first_raise _ _ _ Hq) as [-> ->]. reflexivity.
Qed.

Lemma call_hook_attrs ev e : attrs (snd (call_hook ev e)) = attrs e.
Proof. now rewrite call_hook_eq. Qed.

Lemma reached_prefix ev obs hs : reached ev obs hs `prefix_of` hs.
Proof.
  induction hs as [|h hs IH]; cbn; [done|].
  destruct (callback h ev obs).
  - apply prefix_cons, prefix_nil.
  - now apply prefix_cons.
Qed.

(** *** Registration *)

Section Registration.

Variable HOOKS : Registry.

(** What [register_hook] does once its argument is a hook, case by case. *)
Lemma register_hook_cases arg h before e :
  resolve HOOKS arg = Return h ->
  register_hook HOOKS arg before e =
    if hook_in h (_hooks e) then
      (Raise (ValueError ("hook '" +:+ name h +:+ "' exists")), e)
    else if negb (name_in before (_hooks e)) then
      (Raise (ValueError ("hook '" +:+ show_before before +:+ "' not found")), e)
    else
      match callback h on_register (attrs e) with
      | Some payload =>
          (Raise (HookRaised (name h) payload), log_call (name h, on_register) e)
      | None =>
          match index before (_hooks e) with
          | Some idx =>
              (Return tt,
               set_hooks (list_insert_at idx h (_hooks e))
                 (log_call (name h, on_register) e))
          | None => (Raise (ValueError "x is not in list"),
                     log_call (name h, on_register) e)
          end
      end.
Proof.
  intros Hr. unfold register_hook, bind, lift, get. rewrite Hr.
  destruct (hook_in h (_hooks e)); [reflexivity|].
  destruct (name_in before (_hooks e)) eqn:Hin; [|reflexivity].
  cbn [negb]. unfold invoke.
  destruct (callback h on_register (attrs e)); [reflexivity|].
  destruct before as [b|]; [|now rewrite name_in_None in Hin].
  cbn [_hooks log_call].
  destruct (index (Some b) (_hooks e)); reflexivity.
Qed.

(** Registering before a hook that is there puts the new hook right
    before the first hook of that name. *)
Lemma register_hook_inserts h b e :
  hook_in h (_hooks e) = false ->
  name_in (Some b) (_hooks e) = true ->
  callback h on_register (attrs e) = None ->
  exists idx,
    index (Some b) (_hooks e) = Some idx /\
    register_hook HOOKS (ArgHook h) (Some b) e =
      (Return tt,
       set_hooks (take idx (_hooks e) ++ h :: drop idx (_hooks e))
         (log_call (name h, on_register) e)).
Proof.
  intros Hdup Hin Hcb.
  destruct (name_in_index _ _ Hin) as (idx & Hidx & _).
  exists idx. split; [assumption|].
  rewrite (register_hook_cases _ h) by reflexivity.
  now rewrite Hdup, Hin, Hcb, Hidx.
Qed.

(** No call of [register_hook] adds a hook to an engine that has none:
    whatever [before] is, it is not in the empty list. *)
Lemma register_hook_empty arg before e :
  _hooks e = [] ->
  exists x, fst (register_hook HOOKS arg before e) = Raise x /\
            _hooks (snd (register_hook HOOKS arg before e)) = [].
Proof.
  intros He. destruct (resolve HOOKS arg) as [h|x] eqn:Hr.
  - rewrite (register_hook_cases _ h) by assumption. rewrite He. cbn.
    eexists. split; [reflexivity | assumption].
  - unfold register_hook, bind, lift. rewrite Hr. cbn.
    eexists. split; [reflexivity | assumption].
Qed.

Lemma register_all_empty calls e :
  _hooks e = [] -> _hooks (register_all HOOKS calls e) = [].
Proof.
  revert e. induction calls as [|[arg before] calls IH]; intros e He; [assumption|].
  cbn. apply IH. now destruct (register_hook_empty arg before e He) as (_ & _ & ?).
Qed.

(** The constructor never returns: line 20 registers with [before=None]
    into the list that line 13 has just emptied. *)
Lemma init_never_returns m dl sch arg wd e :
  exists x, fst (__init__ HOOKS m dl sch arg wd e) = Raise x.
Proof.
  unfold __init__. unfold bind at 1. unfold modify at 1.
  destruct (register_hook_empty arg None (init_fields m dl sch wd e) eq_refl)
    as (x & Hx & _).
  unfold bind.
  destruct (register_hook HOOKS arg None (init_fields m dl sch wd e)) as [[u|y] e'].
  - discriminate.
  - now exists y.
Qed.

(** Lines 22-25 on their own. *)
Lemma init_counters_resets e :
  hooks (init_counters e) = [] /\ stage (init_counters e) = Some 0 /\
  epoch (init_counters e) = Some 0 /\ iter (init_counters e) = Some 0.
Proof.
  unfold hooks, stage, epoch, iter, init_counters. cbn.
  repeat split; now simplify_map_eq.
Qed.

(** C1.  The claim: with [before=None] (the default) [register_hook]
    succeeds and appends the hook to the end of the hook list.  The code:
    for every engine and every hook, the default call raises and leaves the
    engine as it was.  A hook whose name is registered gets the "exists"
    error; any other gets "hook 'None' not found", because line 45 tests
    [before not in self._hooks] without asking first whether [before] is
    [None].  The appending branch of lines 52-53 is never reached. *)
Theorem register_hook_default_raises e h :
  register_hook HOOKS (ArgHook h) None e =
    (Raise (ValueError (if hook_in h (_hooks e)
                        then "hook '" +:+ name h +:+ "' exists"
                        else "hook 'None' not found")), e) /\
  (forall before,
     fst (register_hook HOOKS (ArgHook h) before e) =
       Raise (ValueError ("hook '" +:+ show_before before +:+ "' not found"))
     <-> hook_in h (_hooks e) = false /\ name_in before (_hooks e) = false).
Proof.
  split.
  - rewrite (register_hook_cases _ h) by reflexivity.
    rewrite name_in_None. now destruct (hook_in h (_hooks e)).
  - intros before. rewrite (register_hook_cases _ h) by reflexivity.
    destruct (hook_in h (_hooks e)).
    + cbn. split; [|now intros [? _]]. intros H. exfalso.
      apply (exists_not_found (name h) (show_before before)). congruence.
    + destruct (name_in before (_hooks e)); cbn.
      * split; [|now intros [_ ?]].
        destruct (callback h on_register (attrs e)); [discriminate|].
        destruct (index before (_hooks e)); cbn; discriminate.
      * split; auto.
Qed.

(** C7.  Once its argument is a hook [h], [register_hook] raises the
    duplicate error ([ValueError]: hook '<name>' exists) exactly when a hook
    of the same name is already registered; the engine is then left as it
    was: same hook list, and no callback invoked, [on_register] included
    (the trace of invocations is part of the engine state). *)
Theorem register_hook_duplicate arg h before e :
  resolve HOOKS arg = Return h ->
  (fst (register_hook HOOKS arg before e) =
     Raise (ValueError ("hook '" +:+ name h +:+ "' exists"))
   <-> hook_in h (_hooks e) = true) /\
  (hook_in h (_hooks e) = true ->
   snd (register_hook HOOKS arg before e) = e /\
   hooks (snd (register_hook HOOKS arg before e)) = hooks e /\
   trace (snd (register_hook HOOKS arg before e)) = trace e).
Proof.
  intros Hr. rewrite (register_hook_cases _ h) by assumption.
  destruct (hook_in h (_hooks e)) eqn:Hdup.
  - cbn. repeat split; auto.
  - split; [|discriminate]. split; [|discriminate].
    destruct (negb (name_in before (_hooks e))).
    + cbn. intros H. exfalso.
      apply (exists_not_found (name h) (show_before before)). congruence.
    + destruct (callback h on_register (attrs e)); [discriminate|].
      destruct (index before (_hooks e)); cbn; discriminate.
Qed.

(** C9.  Take any engine, run any sequence of [register_hook] calls on it,
    and let [e] be the engine they leave.  If no callback raises, the
    dispatch of the "before" event of a piece of work invokes the hooks of
    [e] in the order of its hook list, each once, and the dispatch of the
    "after" event invokes them in that same order, not reversed.  One more
    call that registers [h] before the hook named [b] puts [h] right before
    the first hook of that name, in the list and so in both dispatches. *)
Theorem dispatch_order e0 calls w :
  let e := register_all HOOKS calls e0 in
  (quiet (before w) e -> quiet (after w) e ->
   dispatched (before w) e = name <$> hooks e /\
   dispatched (after w) e = name <$> hooks e) /\
  (forall h b idx,
     hook_in h (hooks e) = false -> index (Some b) (hooks e) = Some idx ->
     callback h on_register (attrs e) = None ->
     let e' := register_all HOOKS (calls ++ [(ArgHook h, Some b)]) e0 in
     hooks e' = take idx (hooks e) ++ h :: drop idx (hooks e) /\
     (quiet (before w) e' -> quiet (after w) e' ->
      dispatched (before w) e' =
        take idx (name <$> hooks e) ++ name h :: drop idx (name <$> hooks e) /\
      dispatched (after w) e' = dispatched (before w) e')).
Proof.
  assert (Hq : forall e, quiet (before w) e -> quiet (after w) e ->
                 dispatched (before w) e = name <$> hooks e /\
                 dispatched (after w) e = name <$> hooks e).
  { intros e Hb Ha. unfold dispatched, hooks.
    rewrite !call_hook_quiet by assumption. cbn.
    rewrite !drop_app_length, <- !list_fmap_compose.
    split; reflexivity. }
  intros e. split; [apply Hq|].
  intros h b idx Hdup Hidx Hcb e'.
  assert (He' : hooks e' = take idx (hooks e) ++ h :: drop idx (hooks e)).
  { unfold e', register_all. rewrite fold_left_app. cbn [fold_left fst snd].
    fold (register_all HOOKS calls e0). fold e.
    destruct (register_hook_inserts h b e Hdup (index_name_in _ _ _ Hidx) Hcb)
      as (idx' & Hidx' & ->).
    unfold hooks in Hidx. rewrite Hidx in Hidx'. now injection Hidx' as <-. }
  split; [exact He'|]. intros Hb Ha.
  destruct (Hq e' Hb Ha) as [-> ->]. rewrite He'.
  rewrite fmap_app, fmap_cons, fmap_take, fmap_drop. split; reflexivity.
Qed.

End Registration.

(** *** The counters *)

(** Two dispatches in a row leave the attributes alone, however they end. *)
Lemma bracket_attrs ev1 ev2 e :
  attrs (snd ((call_hook ev1 ;; call_hook ev2) e)) = attrs e.
Proof.
  unfold bind.
  pose proof (call_hook_attrs ev1 e) as H1.
  destruct (call_hook ev1 e) as [[[]|x] e1]; cbn in *; [|assumption].
  pose proof (call_hook_attrs ev2 e1) as H2.
  destruct (call_hook ev2 e1) as [[[]|y] e2]; cbn in *; congruence.
Qed.

Lemma bracket_quiet ev1 ev2 e :
  quiet ev1 e -> quiet ev2 e ->
  fst ((call_hook ev1 ;; call_hook ev2) e) = Return tt.
Proof.
  intros H1 H2. unfold bind. rewrite call_hook_quiet by assumption.
  rewrite call_hook_quiet; [reflexivity | exact H2].
Qed.

(** A bracket followed by an increment: the outcome and the attributes. *)
Lemma bracket_incr ev1 ev2 a e :
  let r := (call_hook ev1 ;; call_hook ev2 ;; incr a) e in
  let b := (call_hook ev1 ;; call_hook ev2) e in
  (fst r = Return tt <->
   fst b = Return tt /\ is_Some (attrs e !! a)) /\
  attrs (snd r) =
    match fst b, attrs e !! a with
    | Return _, Some n => <[a:=n + 1]> (attrs e)
    | _, _ => attrs e
    end.
Proof.
  cbn zeta. pose proof (bracket_attrs ev1 ev2 e) as Hat. revert Hat.
  unfold bind.
  destruct (call_hook ev1 e) as [[[]|x] e1]; cbn.
  - destruct (call_hook ev2 e1) as [[[]|y] e2]; cbn.
    + intros Hat. unfold incr. rewrite Hat.
      destruct (attrs e !! a) as [n|]; cbn.
      * rewrite Hat. split; [|reflexivity]. split; eauto.
      * split; [|assumption]. split; [discriminate|]. now intros [_ [? ?]].
    + intros Hat. split; [|now destruct (attrs e !! a)].
      split; [discriminate|]. now intros [? _].
  - intros Hat. split; [|now destruct (attrs e !! a)].
    split; [discriminate|]. now intros [? _].
Qed.

(** C2.  The claim: every call of [train_step] increases [iter] by 1.
    The code: line 59 increments [self._step], an attribute that no line of
    the class assigns, and never [self._iter].  So [iter] is the same after
    [train_step] as before it, in every engine state and whatever the
    outcome; on an engine as the constructor's lines 22-25 set it up the
    call ends in [AttributeError].  The other half of the claim holds:
    [val_step] leaves [iter] alone. *)
Theorem train_step_leaves_iter :
  (forall e, iter (snd (train_step e)) = iter e) /\
  (forall e, iter (snd (val_step e)) = iter e) /\
  train_step fresh =
    (Raise (AttributeError "'Engine' object has no attribute '_step'"), fresh).
Proof.
  split; [|split].
  - intros e. unfold iter, train_step.
    destruct (bracket_incr before_train_step after_train_step "_step" e) as [_ ->].
    destruct (fst _); [|reflexivity].
    destruct (attrs e !! "_step"); [|reflexivity].
    now rewrite lookup_insert_ne.
  - intros e. unfold iter, val_step. now rewrite bracket_attrs.
  - reflexivity.
Qed.

(** C3.  In an engine whose epoch counter is [n]: [train_epoch] returns
    when no callback of its two events raises; whenever it returns the
    counter is [n + 1], and when a callback raises the counter is still
    [n]; after [val_epoch] the counter is [n], whatever the outcome. *)
Theorem epoch_counter e n :
  epoch e = Some n ->
  (quiet before_train_epoch e -> quiet after_train_epoch e ->
   fst (train_epoch e) = Return tt) /\
  epoch (snd (train_epoch e)) =
    Some (match fst (train_epoch e) with Return _ => n + 1 | Raise _ => n end) /\
  epoch (snd (val_epoch e)) = Some n.
Proof.
  unfold epoch. intros Hn.
  set (e1 := set_model {| training := true |} e).
  assert (Ht : train_epoch e =
               (call_hook before_train_epoch ;; call_hook after_train_epoch ;;
                incr "_epoch") e1) by reflexivity.
  destruct (bracket_incr before_train_epoch after_train_epoch "_epoch" e1)
    as [Hret Hat].
  cbn zeta in Hret, Hat. rewrite <- Ht in Hret, Hat.
  change (attrs e1) with (attrs e) in Hret, Hat. rewrite Hn in Hat.
  split; [|split].
  - intros Hb Ha. apply Hret. split; [|eauto].
    now apply (bracket_quiet before_train_epoch after_train_epoch e1).
  - rewrite Hat. destruct Hret as [Hr1 Hr2].
    destruct (fst ((call_hook before_train_epoch ;; call_hook after_train_epoch) e1))
      as [[]|y].
    + rewrite Hr2 by eauto. now rewrite lookup_insert_eq.
    + destruct (fst (train_epoch e)) as [[]|x]; [|assumption].
      destruct (Hr1 eq_refl) as [? _]; discriminate.
  - change (val_epoch e) with
      ((call_hook before_val_epoch ;; call_hook after_val_epoch)
         (set_model {| training := false |} e)).
    now rewrite bracket_attrs.
Qed.

(** *** Instances *)

(** The constructor on a single hook: the "not found" error of line 46. *)
Example constructor_raises :
  fst (__init__ [] {| training := false |} [("train", 5)] "sgd"
         (ArgHook (silent "timer")) None blank) =
    Raise (ValueError "hook 'None' not found").
Proof. reflexivity. Qed.

(** A list of hooks is neither a [Hook] nor a dict. *)
Example constructor_rejects_list :
  fst (__init__ [] {| training := false |} [("train", 5)] "sgd"
         (ArgOther "<class 'list'>") None blank) =
    Raise (TypeError "hook must be a Hook or dict, but got <class 'list'>").
Proof. reflexivity. Qed.

Example register_before_checkpoint :
  name <$> hooks (snd (register_hook [] (ArgHook (silent "writer"))
                         (Some "checkpoint") sample)) =
    ["timer"; "writer"; "checkpoint"].
Proof. reflexivity. Qed.

(** [train_step] on an engine with two hooks: both dispatches run, in list
    order, and then the increment of [_step] fails. *)
Example train_step_on_sample :
  fst (train_step sample) =
    Raise (AttributeError "'Engine' object has no attribute '_step'") /\
  drop (length (trace sample)) (trace (snd (train_step sample))) =
    [("timer", before_train_step); ("checkpoint", before_train_step);
     ("timer", after_train_step); ("checkpoint", after_train_step)] /\
  iter (snd (train_step sample)) = Some 7.
Proof. repeat split; vm_compute; reflexivity. Qed.

Lemma register_hook_duplicate_witness :
  fst (register_hook [] (ArgHook (silent "timer")) None sample) =
    Raise (ValueError "hook 'timer' exists") /\
  snd (register_hook [] (ArgHook (silent "timer")) None sample) = sample.
Proof.
  destruct (register_hook_duplicate [] (ArgHook (silent "timer")) (silent "timer")
              None sample eq_refl) as [Hiff Hsame].
  split.
  - apply Hiff. reflexivity.
  - apply Hsame. reflexivity.
Defined.

Lemma dispatch_order_witness :
  let e := register_all [] [(ArgHook (silent "writer"), Some "checkpoint")] sample in
  dispatched before_train_step e = ["timer"; "writer"; "checkpoint"] /\
  dispatched after_train_step e = ["timer"; "writer"; "checkpoint"].
Proof.
  apply (dispatch_order [] sample
           [(ArgHook (silent "writer"), Some "checkpoint")] TrainStep);
    repeat constructor.
Defined.

Lemma epoch_counter_witness :
  fst (train_epoch sample) = Return tt /\
  epoch (snd (train_epoch sample)) = Some 4 /\
  epoch (snd (val_epoch sample)) = Some 3.
Proof.
  destruct (epoch_counter sample 3 eq_refl) as (Hret & Htrain & Hval).
  assert (Hr : fst (train_epoch sample) = Return tt)
    by (apply Hret; repeat constructor).
  rewrite Hr in Htrain. auto.
Defined.

End EngineFacts.

(** ** Properties of hooks/events.py *)

Module EventsFacts.
Import Events.

(** *** Writers only write to their sinks *)

Lemma frames_ret {A} (a : A) : frames (ret a).
Proof. intros e. now split. Qed.

Lemma frames_raise {A} x : frames (@raise engine A x).
Proof. intros e. now split. Qed.

Lemma frames_lift {A} (o : outcome A) : frames (lift o).
Proof. intros e. now split. Qed.

Lemma frames_get : frames (@get engine).
Proof. intros e. now split. Qed.

Lemma frames_modify (f : engine -> engine) :
  (forall e, buffer (f e) = buffer e /\ calls (f e) = calls e) ->
  frames (modify f).
Proof. intros Hf e. apply Hf. Qed.

Lemma frames_bind {A B} (c : M engine A) (k : A -> M engine B) :
  frames c -> (forall a, frames (k a)) -> frames (bind c k).
Proof.
  intros Hc Hk e. unfold bind. specialize (Hc e).
  destruct (c e) as [[a|x] e1]; cbn in *; [|assumption].
  destruct (Hk a e1) as [H1 H2]. destruct Hc as [H3 H4]. split; congruence.
Qed.

Lemma frames_for_each {A} (xs : list A) (body : A -> M engine unit) :
  (forall x, frames (body x)) -> frames (for_each xs body).
Proof.
  intros Hb. induction xs as [|x xs IH]; cbn [for_each].
  - apply frames_ret.
  - apply frames_bind; auto.
Qed.

Lemma frames_collect {A} (ks : list string) (f : string -> M engine (list A)) :
  (forall k, frames (f k)) -> frames (collect ks f).
Proof.
  intros Hf. induction ks as [|k ks IH]; cbn [collect].
  - apply frames_ret.
  - apply frames_bind; [auto|]. intros xs.
    apply frames_bind; [auto|]. intros ys. apply frames_ret.
Qed.

Ltac frames_step :=
  first
    [ apply frames_ret | apply frames_raise | apply frames_lift
    | apply frames_get
    | apply frames_modify; intros ?; split; reflexivity
    | apply frames_bind; [|intros ?]
    | apply frames_for_each; intros ?
    | apply frames_collect; intros ?
    | match goal with
      | |- frames (match ?x with _ => _ end) => destruct x
      end ].

Section WithBuiltins.

Variable round5 : float -> float.
Variable dict_mean : list (list (string * float)) -> list (string * float).

Lemma frames_collect_metrics w : frames (collect_metrics round5 dict_mean w).
Proof. unfold collect_metrics. repeat frames_step. Qed.

Lemma frames_eta : frames eta.
Proof. unfold eta. repeat frames_step. Qed.

Lemma frames_write w window_size : frames (write round5 dict_mean w window_size).
Proof.
  destruct w as [|f|hw]; cbn [write].
  - unfold CommandLineWriter_write.
    apply frames_bind; [apply frames_collect_metrics | intros ?].
    apply frames_bind; [apply frames_get | intros ?].
    apply frames_bind.
    + destruct (String.eqb _ _).
      * apply frames_bind; [apply frames_eta | intros ?]. repeat frames_step.
      * repeat frames_step.
    + intros ?. unfold ext_of_key. repeat frames_step.
  - unfold JSONWriter_write.
    apply frames_bind; [apply frames_collect_metrics | intros ?].
    unfold json_of_key. repeat frames_step.
  - unfold TensorboardWriter_write, board_of_key. repeat frames_step.
Qed.

(** [_write] records one call per writer it reaches, the first of them
    before anything can raise, and leaves the buffer alone. *)
Lemma write_loop_calls interval ws e :
  let r := for_each ws (fun w => modify (note_call (w, interval)) ;;
                                 write round5 dict_mean w interval) e in
  buffer (snd r) = buffer e /\
  exists k, (k <= length ws)%nat /\ (ws <> [] -> (0 < k)%nat) /\
            calls (snd r) = calls e ++ ((fun w => (w, interval)) <$> take k ws).
Proof.
  revert e. induction ws as [|w ws IH]; intros e; cbn zeta.
  - split; [reflexivity|]. exists O. cbn. rewrite app_nil_r.
    repeat split; [lia | congruence].
  - cbn [for_each]. unfold bind, modify.
    destruct (frames_write w interval (note_call (w, interval) e)) as [Hb Hc].
    destruct (write round5 dict_mean w interval (note_call (w, interval) e))
      as [[[]|x] e1]; cbn in Hb, Hc |- *.
    + destruct (IH e1) as (Hb1 & k & Hk & _ & Hc1). cbn zeta in Hb1, Hc1.
      split; [etrans; [exact Hb1 | exact Hb]|].
      exists (S k). repeat split; [lia | lia |].
      etrans; [exact Hc1|]. rewrite Hc. cbn. now rewrite <- app_assoc.
    + split; [assumption|]. exists 1%nat. repeat split; [lia | lia |].
      rewrite Hc. cbn. now rewrite take_0.
Qed.

Lemma write_calls self e :
  buffer (snd (_write round5 dict_mean self e)) = buffer e /\
  exists l, calls (snd (_write round5 dict_mean self e)) = calls e ++ l /\
            (_writers self <> [] -> l <> []).
Proof.
  destruct (write_loop_calls (_interval self) (_writers self) e)
    as (Hb & k & Hk & Hpos & Hc).
  split; [exact Hb|]. eexists. split; [exact Hc|].
  intros Hne. specialize (Hpos Hne).
  destruct (_writers self) as [|w ws]; [congruence|].
  destruct k; [lia | discriminate].
Qed.

End WithBuiltins.

(** *** Emptying the buffer *)

Lemma empty_buffer_eq e :
  _empty_buffer e = (Return tt, set_buffer (clear_keys (keys (buffer e)) (buffer e)) e).
Proof.
  unfold _empty_buffer, bind, get.
  assert (H : forall ks e,
             for_each ks
               (fun key => if negb (startswith "_" key)
                           then modify (fun e => set_buffer (clear key (buffer e)) e)
                           else ret tt) e =
             (Return tt, set_buffer (clear_keys ks (buffer e)) e)).
  { clear e. induction ks as [|k ks IH]; intros e.
    - cbn. now destruct e.
    - cbn [for_each clear_keys fold_left]. unfold bind.
      destruct (negb (startswith "_" k)); cbn.
      + rewrite IH. reflexivity.
      + rewrite IH. reflexivity. }
  apply H.
Qed.

Lemma clear_keys_map ks b :
  clear_keys ks b =
    (fun kv => if negb (startswith "_" (fst kv)) && str_in (fst kv) ks
               then (fst kv, []) else kv) <$> b.
Proof.
  revert b. induction ks as [|k ks IH]; intros b; cbn [clear_keys fold_left].
  - cbn. rewrite <- (list_fmap_id b) at 1. apply list_fmap_ext.
    intros i kv _. now rewrite andb_false_r.
  - fold (clear_keys ks (if negb (startswith "_" k) then clear k b else b)).
    rewrite IH. destruct (negb (startswith "_" k)) eqn:Hk.
    + unfold clear. rewrite <- list_fmap_compose. apply list_fmap_ext.
      intros i [k' h] _. unfold compose, str_in. cbn [fst snd existsb].
      destruct (String.eqb k' k) eqn:Heq; cbn [fst snd orb].
      * apply String.eqb_eq in Heq as ->. rewrite Hk. cbn [andb].
        now destruct (existsb _ ks).
      * reflexivity.
    + apply list_fmap_ext. intros i [k' h] _. unfold str_in.
      cbn [fst snd existsb].
      destruct (String.eqb k' k) eqn:Heq; cbn [orb]; [|reflexivity].
      apply String.eqb_eq in Heq as ->. now rewrite Hk.
Qed.

Lemma str_in_keys k h (b : Buffer) : (k, h) ∈ b -> str_in k (keys b) = true.
Proof.
  intros Hin. unfold str_in, keys. apply existsb_exists. exists k.
  split; [|apply String.eqb_refl].
  apply list_elem_of_In, list_elem_of_fmap. now exists (k, h).
Qed.

Lemma clear_keys_emptied b : clear_keys (keys b) b = emptied b.
Proof.
  rewrite clear_keys_map. unfold emptied. apply list_fmap_ext.
  intros i [k h] Hi. cbn [fst snd].
  rewrite (str_in_keys k h b) by (eapply list_elem_of_lookup_2; exact Hi).
  rewrite andb_true_r. now destruct (startswith "_" k).
Qed.

Lemma history_emptied b k :
  history (emptied b) k =
    if startswith "_" k then history b k else (fun _ => []) <$> history b k.
Proof.
  induction b as [|[k' h] b IH]; cbn [emptied fmap list_fmap history fst snd].
  - now destruct (startswith "_" k).
  - fold (emptied b).
    destruct (startswith "_" k') eqn:Hk'; cbn [history];
      destruct (String.eqb k' k) eqn:Heq; try exact IH.
    + apply String.eqb_eq in Heq as <-. now rewrite Hk'.
    + apply String.eqb_eq in Heq as <-. now rewrite Hk'.
Qed.

Lemma empty_buffer_emptied e :
  _empty_buffer e = (Return tt, set_buffer (emptied (buffer e)) e).
Proof. now rewrite empty_buffer_eq, clear_keys_emptied. Qed.

(** *** Keys with the trailing marker *)

Lemma rev_onto_last s acc c :
  last_char s = Some c -> exists r, str_rev_onto s acc = String c r.
Proof.
  revert acc. induction s as [|d s IH]; intros acc; [discriminate|].
  destruct s as [|d' s'].
  - cbn. intros [= ->]. eauto.
  - intros H. apply (IH (String d acc)). exact H.
Qed.

Lemma endswith_last_char s : endswith "_" s = true -> last_char s = Some "_"%char.
Proof.
  unfold endswith, str_rev. change (str_rev_onto "_" "") with "_"%string.
  destruct (last_char s) as [c|] eqn:Hl.
  - destruct (rev_onto_last s "" c Hl) as [r ->]. cbn [String.prefix].
    destruct (ascii_dec "_" c) as [<-|]; [reflexivity | discriminate].
  - destruct s as [|d s]; [discriminate|].
    exfalso. revert d Hl. induction s as [|d' s IH]; intros d; [discriminate|].
    apply IH.
Qed.

Lemma split_length sep s :
  last_char s = Some sep -> (2 <= length (split sep s))%nat.
Proof.
  induction s as [|c s IH]; [discriminate|].
  destruct s as [|d s'].
  - cbn [last_char]. intros [= ->]. cbn [split]. rewrite Ascii.eqb_refl.
    cbn [length]. lia.
  - intros H. specialize (IH H). remember (String d s') as t eqn:Et.
    cbn [split]. destruct (Ascii.eqb c sep); [cbn [length]; lia|].
    destruct (split sep t); cbn [length] in *; lia.
Qed.

Lemma nth_from_end_some {A} (k : nat) (l : list A) :
  (0 < k <= length l)%nat -> exists x, nth_from_end k l = Some x.
Proof.
  intros Hk. unfold nth_from_end. rewrite decide_True by lia.
  apply lookup_lt_is_Some. lia.
Qed.

(** *** Firing *)

Section Firing.

Variable round5 : float -> float.
Variable dict_mean : list (list (string * float)) -> list (string * float).

Lemma fire_buffer self e e' :
  fire round5 dict_mean self e = (Return tt, e') -> buffer e' = emptied (buffer e).
Proof.
  unfold fire, bind. destruct (write_calls round5 dict_mean self e) as [Hb _].
  destruct (_write round5 dict_mean self e) as [[[]|x] e1]; [|discriminate].
  rewrite empty_buffer_emptied. cbn in Hb. intros [= <-]. cbn. now rewrite Hb.
Qed.

Lemma fire_calls self e :
  _writers self <> [] -> new_calls e (snd (fire round5 dict_mean self e)) <> [].
Proof.
  intros Hne. unfold fire, new_calls, bind.
  destruct (write_calls round5 dict_mean self e) as (_ & l & Hc & Hl).
  specialize (Hl Hne).
  destruct (_write round5 dict_mean self e) as [[[]|x] e1]; cbn in Hc.
  - rewrite empty_buffer_emptied. cbn. rewrite Hc, drop_app_length. exact Hl.
  - cbn. rewrite Hc, drop_app_length. exact Hl.
Qed.

Lemma after_train_iter_master self e :
  is_master e = true ->
  after_train_iter round5 dict_mean self e =
    if last_iter_in_epoch e || every_n_iters e (_interval self)
    then fire round5 dict_mean self e else (Return tt, e).
Proof.
  intros Hm. unfold after_train_iter, master_only. rewrite Hm.
  unfold bind at 1. unfold get.
  destruct (last_iter_in_epoch e), (every_n_iters e (_interval self)); reflexivity.
Qed.

Lemma after_train_iter_worker self e :
  is_master e = false ->
  after_train_iter round5 dict_mean self e = (Return tt, e).
Proof. intros Hm. unfold after_train_iter, master_only. now rewrite Hm. Qed.

(** On a process other than the master nothing is written, ever. *)
Lemma worker_never_fires self e :
  is_master e = false -> invokes_writers round5 dict_mean self e = false.
Proof.
  intros Hm. unfold invokes_writers. rewrite after_train_iter_worker by assumption.
  cbn [snd]. unfold new_calls. now rewrite drop_all.
Qed.

Lemma new_calls_same e : new_calls e e = [].
Proof. unfold new_calls. apply drop_all. Qed.

(** C4, as the code has it.  On the master process, for a hook with at
    least one writer and an interval other than 0 (where [mod] is Python's
    [%]), the callback run when iteration [N] completes makes the writers
    write if and only if [N] is the last iteration of its epoch or
    [(N - epoch_start_iter) mod interval] is 0.  With interval 2 and an epoch of 5 iterations, that is at
    iterations 2, 4 and 5.  (On any other process the callback does
    nothing: it is wrapped in [master_only].) *)
Theorem writers_invoked_on_master self e :
  is_master e = true -> _interval self <> 0 -> _writers self <> [] ->
  (invokes_writers round5 dict_mean self e = true <->
   iteration e - epoch_start_iter e = data_loader_len e \/
   (iteration e - epoch_start_iter e) mod _interval self = 0) /\
  List.filter (fun n => invokes_writers round5 dict_mean sample_hook (at_iteration n))
              [1; 2; 3; 4; 5] = [2; 4; 5].
Proof.
  intros Hm _ Hne. split; [|vm_compute; reflexivity].
  unfold invokes_writers. rewrite after_train_iter_master by assumption.
  unfold last_iter_in_epoch, every_n_iters.
  destruct (Z.eqb_spec (iteration e - epoch_start_iter e) (data_loader_len e)) as [Hl|Hl];
    destruct (Z.eqb_spec ((iteration e - epoch_start_iter e) mod _interval self) 0)
      as [Hi|Hi]; cbn [orb].
  1-3: pose proof (fire_calls self e Hne) as Hc;
       destruct (new_calls e (snd (fire round5 dict_mean self e))); [congruence|]; split; auto.
  cbn [snd]. rewrite new_calls_same. split; [discriminate | tauto].
Qed.

(** C5.  Whenever [EventWriterHook] has fired (its callback after a
    training iteration that is the last of its epoch or on the interval, or
    its callback after a validation epoch, has run on the master process and
    returned), every buffer key without the leading marker has an empty
    history, and every key with the leading marker has the history it had
    before. *)
Theorem fire_clears_buffer self e e' :
  is_master e = true ->
  (after_train_iter round5 dict_mean self e = (Return tt, e') /\
   last_iter_in_epoch e || every_n_iters e (_interval self) = true) \/
  after_val_epoch round5 dict_mean self e = (Return tt, e') ->
  forall k,
    history (buffer e') k =
      if startswith "_" k then history (buffer e) k
      else (fun _ => []) <$> history (buffer e) k.
Proof.
  intros Hm Hfire k. rewrite <- history_emptied. f_equal.
  destruct Hfire as [[Hret Hcond] | Hret].
  - rewrite after_train_iter_master, Hcond in Hret by assumption.
    now apply (fire_buffer self).
  - unfold after_val_epoch, master_only in Hret. rewrite Hm in Hret.
    now apply (fire_buffer self).
Qed.

End Firing.

(** On a process other than the master the callback does not make the
    writers write, last iteration of the epoch or not: C4 as stated, without
    the restriction to the master process, fails. *)
Lemma worker_never_invokes_writers :
  let e := on_worker (at_iteration 5) in
  ~ (invokes_writers no_round no_dicts sample_hook e = true <->
     iteration e - epoch_start_iter e = data_loader_len e \/
     (iteration e - epoch_start_iter e) mod _interval sample_hook = 0).
Proof.
  cbn zeta. intros [_ H].
  assert (Hf : invokes_writers no_round no_dicts sample_hook
                 (on_worker (at_iteration 5)) = false) by (vm_compute; reflexivity).
  rewrite Hf in H. discriminate H. left. reflexivity.
Qed.

Lemma writers_invoked_on_master_witness :
  (invokes_writers no_round no_dicts sample_hook (at_iteration 4) = true <->
   iteration (at_iteration 4) - epoch_start_iter (at_iteration 4) =
     data_loader_len (at_iteration 4) \/
   (iteration (at_iteration 4) - epoch_start_iter (at_iteration 4))
     mod _interval sample_hook = 0) /\
  List.filter (fun n => invokes_writers no_round no_dicts sample_hook (at_iteration n))
              [1; 2; 3; 4; 5] = [2; 4; 5].
Proof.
  apply (writers_invoked_on_master no_round no_dicts sample_hook (at_iteration 4));
    [reflexivity | discriminate | discriminate].
Defined.

Lemma fire_clears_buffer_witness :
  let e' := snd (after_train_iter no_round no_dicts sample_hook (at_iteration 4)) in
  history (buffer e') "loss" = Some [] /\
  history (buffer e') "loss_histogram_" = Some [] /\
  history (buffer e') "_iter_time" = history sample_buffer "_iter_time".
Proof.
  cbn zeta.
  pose proof (fire_clears_buffer no_round no_dicts sample_hook (at_iteration 4)
                (snd (after_train_iter no_round no_dicts sample_hook (at_iteration 4)))
                eq_refl) as H.
  assert (Hfire :
            after_train_iter no_round no_dicts sample_hook (at_iteration 4) =
              (Return tt,
               snd (after_train_iter no_round no_dicts sample_hook (at_iteration 4))) /\
            last_iter_in_epoch (at_iteration 4)
              || every_n_iters (at_iteration 4) (_interval sample_hook) = true)
    by (split; vm_compute; reflexivity).
  specialize (H (or_introl Hfire)).
  split; [apply (H "loss") | split; [apply (H "loss_histogram_") | apply (H "_iter_time")]].
Defined.

(** *** The dashboard writer and rich-media keys *)

Section Dashboard.

Variable dict_mean : list (list (string * float)) -> list (string * float).

(** C6, as the code has it.  For a key that the dashboard writer does not
    skip (no leading marker) and that has the trailing marker, the type
    token [tokens[-2]] always exists.  If it is none of histogram, image,
    images, figure, video, audio, text, the writer raises [TypeError] with
    the message: unsupported log type: '<token>' (the token between single
    quotes), before it touches the buffer or the dashboard.  If it is one of
    them, the writer passes the latest value of the key to the rendering
    call [add_<token>], under the tag made of the remaining tokens and the
    mode, at the global iteration.  So "loss_histogram_" goes through
    [add_histogram] with tag "loss/<mode>", and "loss_unknowntype_" ends in
    the error: unsupported log type: 'unknowntype'. *)
Theorem board_rich_media hw window_size key e :
  startswith "_" key = false -> endswith "_" key = true ->
  (exists log_type,
     nth_from_end 2 (split "_" key) = Some log_type /\
     (str_in log_type log_types = false ->
      board_of_key dict_mean hw window_size key e =
        (Raise (TypeError ("unsupported log type: '" +:+ log_type +:+ "'")), e)) /\
     (str_in log_type log_types = true ->
      forall record, latest (buffer e) key = Return record ->
      board_of_key dict_mean true window_size key e =
        (Return tt,
         board_add (Add ("add_" +:+ log_type)
                        (join (drop_last 2 (split "_" key)) +:+ "/" +:+ mode e)
                        record (iter e)) e))) /\
  (forall record, latest (buffer e) "loss_histogram_" = Return record ->
   board_of_key dict_mean true window_size "loss_histogram_" e =
     (Return tt, board_add (Add "add_histogram" ("loss/" +:+ mode e) record (iter e)) e)) /\
  board_of_key dict_mean hw window_size "loss_unknowntype_" e =
    (Raise (TypeError "unsupported log type: 'unknowntype'"), e).
Proof.
  intros Hlead Htrail. split; [|split].
  - destruct (nth_from_end_some 2 (split "_" key)) as [log_type Hnth].
    { split; [lia|]. now apply split_length, endswith_last_char. }
    exists log_type. split; [assumption|]. split.
    + intros Hbad. unfold board_of_key, bind, get.
      now rewrite Hlead, Htrail, Hnth, Hbad.
    + intros Hgood record Hrec. unfold board_of_key, bind, get, lift.
      now rewrite Hlead, Htrail, Hnth, Hgood, Hrec.
  - intros record Hrec. unfold board_of_key, bind, get, lift.
    change (startswith "_" "loss_histogram_") with false.
    change (endswith "_" "loss_histogram_") with true.
    change (nth_from_end 2 (split "_" "loss_histogram_")) with (Some "histogram").
    change (str_in "histogram" log_types) with true.
    cbn [negb]. now rewrite Hrec.
  - reflexivity.
Qed.

End Dashboard.

(** The message the code raises is not the one C6 quotes: the token comes
    between single quotes. *)
Lemma unsupported_type_message_is_quoted :
  fst (board_of_key no_dicts true 2 "loss_unknowntype_" (at_iteration 4)) =
    Raise (TypeError "unsupported log type: 'unknowntype'") /\
  fst (board_of_key no_dicts true 2 "loss_unknowntype_" (at_iteration 4)) <>
    Raise (TypeError "unsupported log type: unknowntype").
Proof. split; [reflexivity | discriminate]. Qed.

Lemma board_rich_media_witness :
  board_of_key no_dicts true 2 "loss_histogram_" (at_iteration 4) =
    (Return tt,
     board_add (Add "add_histogram" "loss/train" (VObj "weights") 3) (at_iteration 4)).
Proof.
  destruct (board_rich_media no_dicts true 2 "loss_histogram_" (at_iteration 4)
              eq_refl eq_refl) as [(log_type & Hnth & _ & Hgood) _].
  injection Hnth as <-.
  exact (Hgood eq_refl (VObj "weights") eq_refl).
Defined.

(** *** The console writer and its ETA *)

Lemma reads_ret {A} (a : A) : reads (ret a).
Proof. now intros e. Qed.

Lemma reads_raise {A} x : reads (@raise engine A x).
Proof. now intros e. Qed.

Lemma reads_lift {A} (o : outcome A) : reads (lift o).
Proof. now intros e. Qed.

Lemma reads_get : reads (@get engine).
Proof. now intros e. Qed.

Lemma reads_bind {A B} (c : M engine A) (k : A -> M engine B) :
  reads c -> (forall a, reads (k a)) -> reads (bind c k).
Proof.
  intros Hc Hk e. unfold bind. specialize (Hc e).
  destruct (c e) as [[a|x] e1]; cbn in *; subst; [apply Hk | reflexivity].
Qed.

Lemma reads_collect {A} (ks : list string) (f : string -> M engine (list A)) :
  (forall k, reads (f k)) -> reads (collect ks f).
Proof.
  intros Hf. induction ks as [|k ks IH]; cbn [collect].
  - apply reads_ret.
  - apply reads_bind; [auto|]. intros xs.
    apply reads_bind; [auto|]. intros ys. apply reads_ret.
Qed.

Ltac reads_step :=
  first
    [ apply reads_ret | apply reads_raise | apply reads_lift | apply reads_get
    | apply reads_bind; [|intros ?]
    | apply reads_collect; intros ?
    | match goal with
      | |- reads (match ?x with _ => _ end) => destruct x
      end ].

(** What [eta] has computed when it returns. *)
Lemma eta_inv e seconds e1 :
  eta e = (Return seconds, e1) ->
  e1 = e /\
  exists t left passed,
    latest (buffer e) "_total_time" = Return (VNum t) /\
    float_of_int (max_iters e - iter e - 1) = Return left /\
    float_of_int (iter e + 1 - start_iter e) = Return passed /\
    int_of_float (PrimFloat.div (PrimFloat.mul left t) passed) = Return seconds.
Proof.
  unfold eta, bind, get, lift, raise.
  destruct (latest (buffer e) "_total_time") as [[t|d|o]|x]; try discriminate.
  destruct (float_of_int (max_iters e - iter e - 1)) as [left|x]; [|discriminate].
  destruct (float_of_int (iter e + 1 - start_iter e)) as [passed|x]; [|discriminate].
  unfold float_truediv. destruct (PrimFloat.eqb passed 0); [discriminate|].
  destruct (int_of_float (PrimFloat.div (PrimFloat.mul left t) passed))
    as [n|x] eqn:Hn; [|discriminate].
  unfold timedelta. destruct (Z.abs (n / 86400) <=? 999999999); [|discriminate].
  intros [= <- <-]. split; [reflexivity|]. exists t, left, passed. auto.
Qed.

Section Console.

Variable round5 : float -> float.
Variable dict_mean : list (list (string * float)) -> list (string * float).

Lemma reads_ext w ks : reads (collect ks (ext_of_key dict_mean w)).
Proof. apply reads_collect. intros k. unfold ext_of_key. repeat reads_step. Qed.

Lemma collect_metrics_train w e m e1 :
  mode e = "train" ->
  collect_metrics round5 dict_mean w e = (Return m, e1) ->
  e1 = e /\ m_epoch m = epoch e + 1 /\ m_iter m = iter_in_epoch e + 1.
Proof.
  intros Hmode. unfold collect_metrics, bind, get, lift, ret. rewrite Hmode.
  change (String.eqb "train" "train") with true. cbn iota.
  destruct (mean dict_mean (buffer e) "_iter_time" w); [|discriminate].
  destruct (mean dict_mean (buffer e) "_data_time" w); [|discriminate].
  intros [= <- <-]. auto.
Qed.

(** C8, as the code has it.  In training mode, whenever the console
    writer's [write] returns, the line it logs carries as ETA the number
    [int(num_iter_left * total_time / num_iter_passed)]: [total_time] is the
    latest value recorded under "_total_time" (not an average over the
    window, which plays no part in it), [num_iter_left] is
    [max_iters - iter - 1], [num_iter_passed] is [iter + 1 - start_iter],
    the arithmetic is that of floats, and [int] drops the fraction. *)
Theorem eta_from_total_time window_size e e' :
  mode e = "train" ->
  CommandLineWriter_write round5 dict_mean window_size e = (Return tt, e') ->
  exists t left passed seconds lr time data_time ext,
    latest (buffer e) "_total_time" = Return (VNum t) /\
    float_of_int (max_iters e - iter e - 1) = Return left /\
    float_of_int (iter e + 1 - start_iter e) = Return passed /\
    int_of_float (PrimFloat.div (PrimFloat.mul left t) passed) = Return seconds /\
    logger e' =
      logger e ++ [TrainLine (epoch e + 1) (iter_in_epoch e + 1) (data_loader_len e)
                     lr seconds time data_time (cuda_memory e) ext].
Proof.
  intros Hmode. unfold CommandLineWriter_write. unfold bind at 1.
  destruct (collect_metrics round5 dict_mean window_size e) as [[m|x] e1] eqn:Hm;
    [|discriminate].
  destruct (collect_metrics_train _ _ _ _ Hmode Hm) as (-> & Hep & Hit).
  unfold bind at 1. unfold get at 1. unfold bind at 1. rewrite Hmode.
  change (String.eqb "train" "train") with true. cbn iota.
  unfold bind at 1.
  destruct (eta e) as [[seconds|x] e2] eqn:Heta; [|discriminate].
  destruct (eta_inv _ _ _ Heta) as (-> & t & left & passed & Ht & Hl & Hp & Hs).
  destruct (m_lr m) as [lr|]; [|discriminate].
  destruct (m_time m) as [[time| |]|]; try discriminate.
  destruct (m_data_time m) as [[data_time| |]|]; try discriminate.
  unfold ret at 1. unfold bind at 1.
  pose proof (reads_ext window_size (keys (buffer e)) e) as Hr.
  destruct (collect (keys (buffer e)) (ext_of_key dict_mean window_size) e)
    as [[ext|x] e3]; [|discriminate].
  cbn in Hr. subst e3. unfold modify. intros [= <-].
  exists t, left, passed, seconds, lr, time, data_time, ext.
  rewrite Hep, Hit. cbn. auto.
Qed.

End Console.

(** The console line and the dashboard calls at the fourth iteration. *)
Example console_logs_sample :
  logger (snd (CommandLineWriter_write no_round no_dicts 2 (at_iteration 4))) =
    [TrainLine 1 4 5 0.5 1 0.25 0.125 None [("loss", 3%float)]].
Proof. vm_compute. reflexivity. Qed.

Example dashboard_writes_sample :
  TensorboardWriter_write no_dicts true 2 (at_iteration 4) =
    (Return tt,
     board_add (Add "add_histogram" "loss/train" (VObj "weights") 3)
       (board_add (Add "add_scalar" "loss/train" (VNum 3) 3) (at_iteration 4))).
Proof. vm_compute. reflexivity. Qed.

(** At the fourth of eleven iterations, one second in, the code's ETA is
    [int(7 * 1.0 / 4) = 1].  C8's formula gives something else on each of
    its readings: with the moving average of the iteration time (0.25) for
    [mean_iter_time] it gives [round(7 * 0.25 / 4) = 0]; and rounding, in
    place of truncating, the very quotient the code computes gives 2. *)
Lemma eta_is_not_as_specified :
  fst (eta (at_iteration 4)) = Return 1 /\
  fst (eta_as_specified no_dicts 2 (at_iteration 4)) = Return 0 /\
  fst (eta (at_iteration 4)) <> fst (eta_as_specified no_dicts 2 (at_iteration 4)) /\
  round_float (PrimFloat.div (PrimFloat.mul 7 1) 4) = Return 2.
Proof.
  assert (H1 : fst (eta (at_iteration 4)) = Return 1) by (vm_compute; reflexivity).
  assert (H2 : fst (eta_as_specified no_dicts 2 (at_iteration 4)) = Return 0)
    by (vm_compute; reflexivity).
  split; [exact H1|]. split; [exact H2|]. split.
  - rewrite H1, H2. discriminate.
  - vm_compute. reflexivity.
Qed.

Lemma eta_from_total_time_witness :
  exists t left passed seconds lr time data_time ext,
    latest (buffer (at_iteration 4)) "_total_time" = Return (VNum t) /\
    float_of_int (max_iters (at_iteration 4) - iter (at_iteration 4) - 1) = Return left /\
    float_of_int (iter (at_iteration 4) + 1 - start_iter (at_iteration 4)) = Return passed /\
    int_of_float (PrimFloat.div (PrimFloat.mul left t) passed) = Return seconds /\
    logger (snd (CommandLineWriter_write no_round no_dicts 2 (at_iteration 4))) =
      logger (at_iteration 4) ++
        [TrainLine (epoch (at_iteration 4) + 1) (iter_in_epoch (at_iteration 4) + 1)
           (data_loader_len (at_iteration 4)) lr seconds time data_time
           (cuda_memory (at_iteration 4)) ext].
Proof.
  apply (eta_from_total_time no_round no_dicts 2 (at_iteration 4)
           (snd (CommandLineWriter_write no_round no_dicts 2 (at_iteration 4)))).
  - reflexivity.
  - vm_compute. reflexivity.
Defined.

End EventsFacts.

(** ** More of engine.py: the constructor, registration, the six methods *)

Module EngineCoverage.
Import Engine EngineFacts.

Lemma first_raise_none ev obs hs :
  first_raise ev obs hs = None -> reached ev obs hs = hs.
Proof.
  induction hs as [|h hs IH]; cbn; [reflexivity|].
  destruct (callback h ev obs); [discriminate|]. intros H. now rewrite IH.
Qed.

Lemma first_raise_quiet ev e :
  first_raise ev (attrs e) (_hooks e) = None <-> quiet ev e.
Proof.
  unfold quiet. induction (_hooks e) as [|h hs IH]; cbn.
  - split; [constructor | reflexivity].
  - destruct (callback h ev (attrs e)) eqn:Hc.
    + split; [discriminate|]. intros H. inversion H; congruence.
    + rewrite IH. split; [now constructor | intros H; now inversion H].
Qed.

(** Every method at once: what it returns or raises, and the engine it
    leaves, from the callbacks of the registered hooks. *)
Lemma run_outcome w e :
  let e0 := prepared w e in
  let hs := _hooks e in
  run w e =
    match first_raise (before w) (attrs e) hs with
    | Some x =>
        (Raise x,
         with_trace (trace e ++ entries (before w) (reached (before w) (attrs e) hs)) e0)
    | None =>
        match first_raise (after w) (attrs e) hs with
        | Some x =>
            (Raise x,
             with_trace (trace e ++ entries (before w) hs
                           ++ entries (after w) (reached (after w) (attrs e) hs)) e0)
        | None =>
            let e2 := with_trace (trace e ++ entries (before w) hs
                                    ++ entries (after w) hs) e0 in
            match counter_of w with
            | Some a => incr a e2
            | None => (Return tt, e2)
            end
        end
    end.
Proof.
  cbn zeta.
  assert (H : forall (k : M Engine unit) e0,
             attrs e0 = attrs e -> _hooks e0 = _hooks e -> trace e0 = trace e ->
             (call_hook (before w) ;; call_hook (after w) ;; k) e0 =
               match first_raise (before w) (attrs e) (_hooks e) with
               | Some x =>
                   (Raise x,
                    with_trace (trace e ++ entries (before w)
                                  (reached (before w) (attrs e) (_hooks e))) e0)
               | None =>
                   match first_raise (after w) (attrs e) (_hooks e) with
                   | Some x =>
                       (Raise x,
                        with_trace (trace e ++ entries (before w) (_hooks e)
                                      ++ entries (after w)
                                           (reached (after w) (attrs e) (_hooks e))) e0)
                   | None =>
                       k (with_trace (trace e ++ entries (before w) (_hooks e)
                                        ++ entries (after w) (_hooks e)) e0)
                   end
               end).
  { intros k e0 Ha Hh Ht. unfold bind. rewrite call_hook_eq, Ha, Hh, Ht.
    destruct (first_raise (before w) (attrs e) (_hooks e)) eqn:Hb; [reflexivity|].
    rewrite (first_raise_none _ _ _ Hb). rewrite call_hook_eq. cbn.
    rewrite Ha, Hh.
    destruct (first_raise (after w) (attrs e) (_hooks e)) eqn:Haf.
    - unfold entries. now rewrite <- app_assoc.
    - rewrite (first_raise_none _ _ _ Haf). unfold entries.
      now rewrite <- app_assoc. }
  assert (H' : forall e0,
             attrs e0 = attrs e -> _hooks e0 = _hooks e -> trace e0 = trace e ->
             (call_hook (before w) ;; call_hook (after w)) e0 =
               (call_hook (before w) ;; call_hook (after w) ;; ret tt) e0).
  { intros e0 _ _ _. unfold bind.
    destruct (call_hook (before w) e0) as [[[]|x] e1]; [|reflexivity].
    destruct (call_hook (after w) e1) as [[[]|x] e2]; reflexivity. }
  destruct w; cbn [run prepared counter_of].
  - unfold launch. rewrite H' by reflexivity. now rewrite H.
  - unfold train_stage. now rewrite H.
  - unfold train_epoch. unfold bind at 1. unfold modify at 1. now rewrite H.
  - unfold val_epoch. unfold bind at 1. unfold modify at 1.
    rewrite H' by reflexivity. now rewrite H.
  - unfold train_step. now rewrite H.
  - unfold val_step. rewrite H' by reflexivity. now rewrite H.
Qed.

Ltac run_cases W e :=
  rewrite (run_outcome W e); cbn zeta; cbn [counter_of prepared];
  repeat match goal with
         | |- context [match first_raise ?ev ?o ?h with _ => _ end] =>
             destruct (first_raise ev o h)
         end;
  unfold incr; cbn [attrs with_trace set_model];
  try match goal with
      | |- context [match attrs ?e !! ?a with _ => _ end] =>
          destruct (attrs e !! a) eqn:?
      end.

Lemma hook_in_names h l : hook_in h l = true <-> name h ∈ name <$> l.
Proof.
  unfold hook_in, hook_eqb. rewrite existsb_exists, list_elem_of_fmap.
  split.
  - intros (h' & Hin & Heq). apply String.eqb_eq in Heq.
    exists h'. split; [assumption | now apply list_elem_of_In].
  - intros (h' & Heq & Hin). exists h'.
    split; [now apply list_elem_of_In | now apply String.eqb_eq].
Qed.

Section Registration.

Variable HOOKS : Registry.

(** X1.  The constructor raises for every argument, on every object: the
    error of lines 38-41 when the [hooks] argument is neither a hook nor a
    config that builds one, and otherwise "hook 'None' not found" (line 46).
    It leaves the object with an empty hook list and with the integer
    attributes it had: [_stage], [_epoch] and [_iter] are never assigned. *)
Theorem constructor_always_raises m dl sch arg wd e :
  let r := __init__ HOOKS m dl sch arg wd e in
  fst r = Raise (match resolve HOOKS arg with
                 | Return _ => ValueError "hook 'None' not found"
                 | Raise x => x
                 end) /\
  hooks (snd r) = [] /\ attrs (snd r) = attrs e /\ trace (snd r) = trace e /\
  stage (snd (__init__ HOOKS m dl sch arg wd blank)) = None.
Proof.
  assert (H : __init__ HOOKS m dl sch arg wd e =
              (Raise (match resolve HOOKS arg with
                      | Return _ => ValueError "hook 'None' not found"
                      | Raise x => x
                      end), init_fields m dl sch wd e)).
  { unfold __init__. unfold bind at 1. unfold modify at 1. unfold bind.
    destruct (resolve HOOKS arg) as [h|x] eqn:Hr.
    - now rewrite (register_hook_cases _ _ h) by assumption.
    - unfold register_hook, bind, lift. now rewrite Hr. }
  cbn zeta. rewrite H. cbn. repeat split.
  unfold stage, __init__, bind, modify.
  destruct (register_hook HOOKS arg None (init_fields m dl sch wd blank))
    as [[[]|x] e1] eqn:Hreg; cbn.
  - destruct (register_hook_empty HOOKS arg None (init_fields m dl sch wd blank) eq_refl)
      as (y & Hy & _). rewrite Hreg in Hy. discriminate.
  - assert (Hat : attrs e1 = attrs (init_fields m dl sch wd blank)).
    { change e1 with (snd (@Raise unit x, e1)). rewrite <- Hreg.
      destruct (resolve HOOKS arg) as [h|y] eqn:Hr.
      - now rewrite (register_hook_cases _ _ h) by assumption.
      - unfold register_hook, bind, lift. now rewrite Hr. }
    rewrite Hat. reflexivity.
Qed.

(** X2.  On an engine without hooks every call of [register_hook] raises
    and changes nothing, whatever the hook and whatever [before]: no
    sequence of calls ever registers a first hook. *)
Theorem registration_never_starts e :
  hooks e = [] ->
  (forall arg before, exists x, register_hook HOOKS arg before e = (Raise x, e)) /\
  (forall calls, register_all HOOKS calls e = e).
Proof.
  unfold hooks. intros He.
  assert (H1 : forall arg before, exists x,
               register_hook HOOKS arg before e = (Raise x, e)).
  { intros arg before. destruct (resolve HOOKS arg) as [h|x] eqn:Hr.
    - rewrite (register_hook_cases _ _ h) by assumption. rewrite He. cbn. eauto.
    - unfold register_hook, bind, lift. rewrite Hr. eauto. }
  split; [exact H1|].
  induction calls as [|[arg before] calls IH]; [reflexivity|].
  unfold register_all in *. cbn [fold_left fst snd].
  destruct (H1 arg before) as [x Hx]. rewrite Hx. exact IH.
Qed.

(** X3.  [register_hook] changes the hook list only when it returns.  When
    it raises, for whatever reason ([on_register] included), the list is
    as it was.  When it returns, its argument was a hook not yet
    registered and [before] named a registered hook; the list has that one
    hook more, right before the first hook named [before], and the hook now
    counts as registered.  It never touches the attributes or the model. *)
Theorem register_hook_all_or_nothing arg before e :
  let r := register_hook HOOKS arg before e in
  (forall x, fst r = Raise x -> hooks (snd r) = hooks e) /\
  (fst r = Return tt ->
   exists h idx,
     resolve HOOKS arg = Return h /\ hook_in h (hooks e) = false /\
     index before (hooks e) = Some idx /\
     hooks (snd r) = take idx (hooks e) ++ h :: drop idx (hooks e) /\
     length (hooks (snd r)) = S (length (hooks e)) /\
     hook_in h (hooks (snd r)) = true /\
     new_trace e (snd r) = [(name h, on_register)]) /\
  attrs (snd r) = attrs e /\ model (snd r) = model e.
Proof.
  cbn zeta. unfold hooks, new_trace.
  destruct (resolve HOOKS arg) as [h|x] eqn:Hr.
  2:{ unfold register_hook, bind, lift. rewrite Hr. cbn.
      repeat split; auto. discriminate. }
  rewrite (register_hook_cases _ _ h) by assumption.
  destruct (hook_in h (_hooks e)) eqn:Hdup; [cbn; repeat split; auto; discriminate|].
  destruct (name_in before (_hooks e)) eqn:Hin; cbn [negb];
    [|cbn; repeat split; auto; discriminate].
  destruct (callback h on_register (attrs e));
    [cbn; repeat split; auto; discriminate|].
  destruct (name_in_index _ _ Hin) as (idx & Hidx & Hlt). rewrite Hidx. cbn.
  repeat split; try discriminate; auto.
  intros _. exists h, idx. unfold list_insert_at. repeat split; auto.
  - rewrite length_app, length_cons, length_take, length_drop. lia.
  - apply hook_in_names. rewrite fmap_app, fmap_cons.
    apply elem_of_app. right. apply elem_of_cons. now left.
  - now rewrite drop_app_length.
Qed.

(** X4.  Hook names stay unique: if no two registered hooks share a name,
    the same holds after [register_hook], however it ends, and after any
    sequence of calls. *)
Theorem register_hook_keeps_names_unique calls e :
  NoDup (name <$> hooks e) ->
  (forall arg before,
     NoDup (name <$> hooks (snd (register_hook HOOKS arg before e)))) /\
  NoDup (name <$> hooks (register_all HOOKS calls e)).
Proof.
  assert (H1 : forall e arg before, NoDup (name <$> hooks e) ->
                 NoDup (name <$> hooks (snd (register_hook HOOKS arg before e)))).
  { clear e. intros e arg before Hnd. unfold hooks in *.
    destruct (resolve HOOKS arg) as [h|x] eqn:Hr.
    2:{ unfold register_hook, bind, lift. now rewrite Hr. }
    rewrite (register_hook_cases _ _ h) by assumption.
    destruct (hook_in h (_hooks e)) eqn:Hdup; [assumption|].
    destruct (negb (name_in before (_hooks e))); [assumption|].
    destruct (callback h on_register (attrs e)); [assumption|].
    destruct (index before (_hooks e)) as [idx|]; [|assumption].
    cbn. unfold list_insert_at. rewrite fmap_app, fmap_cons.
    rewrite <- Permutation_middle.
    rewrite <- fmap_app, take_drop. constructor; [|assumption].
    intros Hin. apply hook_in_names in Hin. congruence. }
  intros Hnd. split; [intros; now apply H1|].
  revert e Hnd. induction calls as [|[arg before] calls IH]; intros e Hnd;
    [assumption|].
  unfold register_all in *. cbn [fold_left fst snd]. apply IH. now apply H1.
Qed.

End Registration.

(** X5.  [train_stage] returns exactly when no callback of its two events
    raises; the stage counter is one more when it returns and the same when
    it raises; [launch] leaves it alone. *)
Theorem stage_counter e n :
  stage e = Some n ->
  (fst (train_stage e) = Return tt <-> quiet before_stage e /\ quiet after_stage e) /\
  stage (snd (train_stage e)) =
    Some (match fst (train_stage e) with Return _ => n + 1 | Raise _ => n end) /\
  stage (snd (launch e)) = Some n.
Proof.
  unfold stage. intros Hn.
  change (train_stage e) with (run Stage e). change (launch e) with (run Launch e).
  rewrite !run_outcome. cbn zeta. cbn [counter_of prepared before after].
  rewrite <- !first_raise_quiet.
  split; [|split].
  - destruct (first_raise before_stage (attrs e) (_hooks e));
      [cbn; split; [discriminate | now intros [? _]]|].
    destruct (first_raise after_stage (attrs e) (_hooks e));
      [cbn; split; [discriminate | now intros [_ ?]]|].
    unfold incr. cbn [attrs with_trace]. rewrite Hn. cbn. tauto.
  - destruct (first_raise before_stage (attrs e) (_hooks e)); [exact Hn|].
    destruct (first_raise after_stage (attrs e) (_hooks e)); [exact Hn|].
    unfold incr. cbn [attrs with_trace]. rewrite Hn. cbn.
    now rewrite lookup_insert_eq.
  - destruct (first_raise before_launch (attrs e) (_hooks e)); [exact Hn|].
    destruct (first_raise after_launch (attrs e) (_hooks e)); exact Hn.
Qed.

(** X6.  With hooks that observe the engine without writing to it, none
    of the six methods changes the hook list, the data loaders, the
    scheduler or the work directory, and none changes an integer attribute
    other than the one counter it increments: [launch], [val_epoch] and
    [val_step] change no attribute at all, whether the hooks return or
    raise. *)
Theorem methods_frame w e :
  hooks (snd (run w e)) = hooks e /\
  data_loaders (snd (run w e)) = data_loaders e /\
  scheduler (snd (run w e)) = scheduler e /\
  work_dir (snd (run w e)) = work_dir e /\
  (forall a, counter_of w <> Some a -> attrs (snd (run w e)) !! a = attrs e !! a) /\
  (counter_of w = None -> attrs (snd (run w e)) = attrs e).
Proof.
  unfold hooks. rewrite (run_outcome w e). cbn zeta.
  destruct (first_raise (before w) (attrs e) (_hooks e));
    [destruct w; cbn; repeat split; auto|].
  destruct (first_raise (after w) (attrs e) (_hooks e));
    [destruct w; cbn; repeat split; auto|].
  destruct (counter_of w) as [c|] eqn:Hc.
  - unfold incr. cbn [attrs with_trace].
    assert (Ha : attrs (prepared w e) = attrs e) by now destruct w.
    rewrite Ha. destruct (attrs e !! c) eqn:Hl; destruct w; cbn;
      repeat split; auto; try discriminate;
      intros a Hne; rewrite lookup_insert_ne; congruence.
  - destruct w; cbn; repeat split; auto.
Qed.

(** X7.  With hooks that observe the engine without writing to it, the
    model is in training mode after [train_epoch] and in evaluation mode
    after [val_epoch], also when a hook has raised and the epoch was
    aborted: the switch comes before the first dispatch.  The other four
    methods leave the mode alone. *)
Theorem epoch_methods_switch_mode e :
  model (snd (train_epoch e)) = {| training := true |} /\
  model (snd (val_epoch e)) = {| training := false |} /\
  model (snd (train_step e)) = model e /\
  model (snd (val_step e)) = model e /\
  model (snd (train_stage e)) = model e /\
  model (snd (launch e)) = model e.
Proof.
  change (train_epoch e) with (run TrainEpoch e).
  change (val_epoch e) with (run ValEpoch e).
  change (train_step e) with (run TrainStep e).
  change (val_step e) with (run ValStep e).
  change (train_stage e) with (run Stage e).
  change (launch e) with (run Launch e).
  repeat split.
  - run_cases TrainEpoch e; reflexivity.
  - run_cases ValEpoch e; reflexivity.
  - run_cases TrainStep e; reflexivity.
  - run_cases ValStep e; reflexivity.
  - run_cases Stage e; reflexivity.
  - run_cases Launch e; reflexivity.
Qed.

(** X8.  When a callback of the "before" event raises, the method raises
    that hook's exception at once: the hooks after it are not called, no
    callback of the "after" event is called, and no counter moves. *)
Theorem raising_before_hook_aborts w e x :
  first_raise (before w) (attrs e) (hooks e) = Some x ->
  fst (run w e) = Raise x /\
  new_trace e (snd (run w e)) =
    entries (before w) (reached (before w) (attrs e) (hooks e)) /\
  (forall h, (h, after w) ∉ new_trace e (snd (run w e))) /\
  attrs (snd (run w e)) = attrs e.
Proof.
  unfold hooks, new_trace. intros Hx. rewrite (run_outcome w e). cbn zeta.
  rewrite Hx. cbn [fst snd trace with_trace]. rewrite drop_app_length.
  repeat split.
  - intros h Hin. unfold entries in Hin. apply list_elem_of_fmap in Hin.
    destruct Hin as (h' & Heq & _). destruct w; discriminate.
  - now destruct w.
Qed.

(** *** Instances *)

Lemma registration_never_starts_witness :
  register_all [] [(ArgHook (silent "timer"), None);
                   (ArgHook (silent "writer"), Some "timer")] fresh = fresh.
Proof.
  destruct (registration_never_starts [] fresh eq_refl) as [_ H]. apply H.
Defined.

Lemma register_hook_keeps_names_unique_witness :
  NoDup (name <$> hooks (snd (register_hook [] (ArgHook (silent "writer"))
                                (Some "checkpoint") sample))).
Proof.
  assert (Hnd : NoDup (name <$> hooks sample)).
  { cbn. repeat constructor; rewrite ?elem_of_cons, ?elem_of_nil;
      intros H; repeat destruct H as [H|H]; try discriminate; assumption. }
  destruct (register_hook_keeps_names_unique [] [] sample Hnd) as [H _].
  apply H.
Defined.

Lemma stage_counter_witness :
  fst (train_stage sample) = Return tt /\
  stage (snd (train_stage sample)) = Some 2 /\
  stage (snd (launch sample)) = Some 1.
Proof.
  destruct (stage_counter sample 1 eq_refl) as (Hret & Hst & Hl).
  assert (Hr : fst (train_stage sample) = Return tt)
    by (apply Hret; split; repeat constructor).
  rewrite Hr in Hst. auto.
Defined.

Lemma raising_before_hook_aborts_witness :
  fst (train_epoch faulty) = Raise (HookRaised "checkpoint" "disk full") /\
  new_trace faulty (snd (train_epoch faulty)) =
    [("timer", before_train_epoch); ("checkpoint", before_train_epoch)] /\
  epoch (snd (train_epoch faulty)) = Some 3.
Proof.
  destruct (raising_before_hook_aborts TrainEpoch faulty
              (HookRaised "checkpoint" "disk full") eq_refl)
    as (Hr & Ht & _ & Ha).
  split; [exact Hr|]. split; [exact Ht|].
  unfold epoch. change (train_epoch faulty) with (run TrainEpoch faulty).
  rewrite Ha. reflexivity.
Defined.

End EngineCoverage.

(** ** More of hooks/events.py: the three writers and the hook *)

Module EventsCoverage.
Import Events EventsFacts.

(** *** What a computation keeps *)

Lemma keeps_ret {A B} (f : engine -> B) (a : A) : keeps f (ret a).
Proof. now intros e. Qed.

Lemma keeps_raise {A B} (f : engine -> B) x : keeps f (@raise engine A x).
Proof. now intros e. Qed.

Lemma keeps_lift {A B} (f : engine -> B) (o : outcome A) : keeps f (lift o).
Proof. now intros e. Qed.

Lemma keeps_get {B} (f : engine -> B) : keeps f (@get engine).
Proof. now intros e. Qed.

Lemma keeps_modify {B} (f : engine -> B) (g : engine -> engine) :
  (forall e, f (g e) = f e) -> keeps f (modify g).
Proof. intros Hg e. apply Hg. Qed.

Lemma keeps_bind {A B C} (f : engine -> C) (c : M engine A) (k : A -> M engine B) :
  keeps f c -> (forall a, keeps f (k a)) -> keeps f (bind c k).
Proof.
  intros Hc Hk e. unfold bind. specialize (Hc e).
  destruct (c e) as [[a|x] e1]; cbn in *; [|assumption].
  now rewrite Hk.
Qed.

Lemma keeps_for_each {A B} (f : engine -> B) (xs : list A) (body : A -> M engine unit) :
  (forall x, keeps f (body x)) -> keeps f (for_each xs body).
Proof.
  intros Hb. induction xs as [|x xs IH]; cbn [for_each].
  - apply keeps_ret.
  - apply keeps_bind; auto.
Qed.

Lemma keeps_collect {A B} (f : engine -> B) (ks : list string)
    (g : string -> M engine (list A)) :
  (forall k, keeps f (g k)) -> keeps f (collect ks g).
Proof.
  intros Hg. induction ks as [|k ks IH]; cbn [collect].
  - apply keeps_ret.
  - apply keeps_bind; [auto|]. intros xs.
    apply keeps_bind; [auto|]. intros ys. apply keeps_ret.
Qed.

Ltac keeps_step :=
  first
    [ apply keeps_ret | apply keeps_raise | apply keeps_lift | apply keeps_get
    | apply keeps_modify; intros ?; reflexivity
    | apply keeps_bind; [|intros ?]
    | apply keeps_for_each; intros ?
    | apply keeps_collect; intros ?
    | match goal with
      | |- keeps _ (match ?x with _ => _ end) => destruct x
      end ].

Section Writers.

Variable round5 : float -> float.
Variable dict_mean : list (list (string * float)) -> list (string * float).

Lemma keeps_console {B} (f : engine -> B) w :
  (forall l e, f (logger_info l e) = f e) ->
  keeps f (CommandLineWriter_write round5 dict_mean w).
Proof.
  intros Hf. unfold CommandLineWriter_write, collect_metrics, eta, ext_of_key.
  repeat first [ apply keeps_modify; intros ?; apply Hf | keeps_step ].
Qed.

Lemma keeps_json {B} (f : engine -> B) fn w :
  (forall n r e, f (file_append n r e) = f e) ->
  keeps f (JSONWriter_write round5 dict_mean fn w).
Proof.
  intros Hf. unfold JSONWriter_write, collect_metrics, json_of_key.
  repeat first [ apply keeps_modify; intros ?; apply Hf | keeps_step ].
Qed.

Lemma keeps_board {B} (f : engine -> B) hw w :
  (forall c e, f (board_add c e) = f e) ->
  keeps f (TensorboardWriter_write dict_mean hw w).
Proof.
  intros Hf. unfold TensorboardWriter_write, board_of_key.
  repeat first [ apply keeps_modify; intros ?; apply Hf | keeps_step ].
Qed.

(** X9.  A writer reads the engine and writes to its own sink only: none
    of the three changes the mode, the counters, the learning rates, the
    work directory or the buffer; the console writer leaves the metrics
    file and the dashboard alone, the file writer the log and the
    dashboard, the dashboard writer the log and the files; and this holds
    however the call ends. *)
Theorem writers_touch_own_sink w window_size e :
  let e' := snd (write round5 dict_mean w window_size e) in
  inputs e' = inputs e /\
  match w with
  | CommandLineWriter => files e' = files e /\ board e' = board e
  | JSONWriter _ => logger e' = logger e /\ board e' = board e
  | TensorboardWriter _ => logger e' = logger e /\ files e' = files e
  end.
Proof.
  destruct w as [|fn|hw]; cbn [write]; cbn zeta; repeat split.
  - now apply (keeps_console inputs).
  - now apply (keeps_console files).
  - now apply (keeps_console board).
  - now apply (keeps_json inputs).
  - now apply (keeps_json logger).
  - now apply (keeps_json board).
  - now apply (keeps_board inputs).
  - now apply (keeps_board logger).
  - now apply (keeps_board files).
Qed.

Lemma collect_metrics_reads w : reads (collect_metrics round5 dict_mean w).
Proof. unfold collect_metrics. repeat reads_step. Qed.

Lemma eta_reads : reads eta.
Proof. unfold eta. repeat reads_step. Qed.


Lemma collect_metrics_other w e :
  String.eqb (mode e) "train" = false ->
  collect_metrics round5 dict_mean w e =
    (Return {| m_mode := mode e; m_epoch := epoch e; m_iter := iter_in_epoch e;
               m_lr := match lrs e with
                       | [x] => LrOne (round5 x)
                       | xs => LrMany (round5 <$> xs)
                       end;
               m_time := None; m_data_time := None |}, e).
Proof. intros Hm. unfold collect_metrics, bind, get. now rewrite Hm. Qed.


Lemma console_shape window_size e :
  (exists x, CommandLineWriter_write round5 dict_mean window_size e = (Raise x, e)) \/
  (exists line,
     CommandLineWriter_write round5 dict_mean window_size e =
       (Return tt, logger_info line e)).
Proof.
  destruct (CommandLineWriter_write round5 dict_mean window_size e)
    as [o e'] eqn:Hr.
  revert Hr. unfold CommandLineWriter_write. unfold bind at 1.
  pose proof (collect_metrics_reads window_size e) as Hm.
  destruct (collect_metrics round5 dict_mean window_size e) as [[m|y] e1];
    cbn in Hm; subst e1; [|intros [= <- <-]; eauto].
  unfold bind at 1. unfold get at 1. unfold bind at 1.
  assert (Hh : reads
            (if String.eqb (mode e) "train"
             then bind eta (fun seconds =>
                    match m_lr m, m_time m, m_data_time m with
                    | LrOne lr, Some (VNum time), Some (VNum data_time) =>
                        ret (TrainLine (m_epoch m) (m_iter m) (data_loader_len e)
                               lr seconds time data_time (cuda_memory e))
                    | _, _, _ => raise (TypeError "unsupported format string")
                    end)
             else ret (ValLine (mode e) (m_epoch m) (data_loader_len e)))).
  { destruct (String.eqb (mode e) "train"); [|apply reads_ret].
    apply reads_bind; [apply eta_reads | intros ?]. repeat reads_step. }
  specialize (Hh e). revert Hh.
  match goal with
  | |- context [match ?c e with _ => _ end] => destruct (c e) as [[head|y] e1]
  end; cbn [snd]; intros ->; [|intros [= <- <-]; eauto].
  unfold bind.
  pose proof (reads_ext dict_mean window_size (keys (buffer e)) e) as Hc.
  destruct (collect (keys (buffer e)) (ext_of_key dict_mean window_size) e)
    as [[ext|y] e1]; cbn in Hc; subst e1; intros [= <- <-]; [|eauto].
  right. now exists (head ext).
Qed.

(** X11.  The console writer logs all or nothing: when [write] raises
    the engine is exactly as it was, and when it returns it has logged
    exactly one line.  In a mode other than training it needs no timing
    series: it returns whenever the reported keys can be averaged, and the
    line carries the mode, the epoch as it is (not shifted by one as in
    training) and the length of the data loader. *)
Theorem console_write_all_or_nothing window_size e :
  let r := CommandLineWriter_write round5 dict_mean window_size e in
  (forall x, fst r = Raise x -> snd r = e) /\
  (fst r = Return tt -> exists line, snd r = logger_info line e) /\
  (String.eqb (mode e) "train" = false ->
   forall ext,
     fst (collect (keys (buffer e)) (ext_of_key dict_mean window_size) e) = Return ext ->
     r = (Return tt,
          logger_info (ValLine (mode e) (epoch e) (data_loader_len e) ext) e)).
Proof.
  cbn zeta. split; [|split].
  - destruct (console_shape window_size e) as [[x ->] | [line ->]]; cbn;
      [reflexivity | discriminate].
  - destruct (console_shape window_size e) as [[x ->] | [line ->]]; cbn;
      [discriminate | eauto].
  - intros Hmode ext Hext. unfold CommandLineWriter_write. unfold bind at 1.
    rewrite (collect_metrics_other _ _ Hmode).
    unfold bind at 1. unfold get at 1. unfold bind at 1. rewrite Hmode.
    unfold ret at 1. unfold bind.
    pose proof (reads_ext dict_mean window_size (keys (buffer e)) e) as Hc.
    destruct (collect (keys (buffer e)) (ext_of_key dict_mean window_size) e)
      as [[ext'|y] e1]; cbn in Hc, Hext; subst e1; [|discriminate].
    injection Hext as ->. reflexivity.
Qed.

(** X12.  The console and file writers never read a key with a leading
    or a trailing marker: over any list of keys their loops give what
    they give over the keys without markers, errors included. *)
Theorem marked_keys_are_skipped window_size ks e :
  collect ks (ext_of_key dict_mean window_size) e =
    collect (List.filter unmarked ks) (ext_of_key dict_mean window_size) e /\
  collect ks (json_of_key dict_mean window_size) e =
    collect (List.filter unmarked ks) (json_of_key dict_mean window_size) e.
Proof.
  assert (H : forall A (f : string -> M engine (list A)),
             (forall k e, unmarked k = false -> f k e = (Return [], e)) ->
             forall e, collect ks f e = collect (List.filter unmarked ks) f e).
  { intros A f Hf. induction ks as [|k ks IH]; intros e0; [reflexivity|].
    cbn [collect List.filter]. destruct (unmarked k) eqn:Hk.
    - cbn [collect]. unfold bind at 1 3.
      destruct (f k e0) as [[xs|x] e1]; [|reflexivity].
      unfold bind. now rewrite IH.
    - unfold bind at 1. rewrite (Hf k e0 Hk). unfold bind, ret. rewrite IH.
      now destruct (collect (List.filter unmarked ks) f e0) as [[ys|x] e1]. }
  split; apply H; intros k e0 Hk; unfold unmarked in Hk;
    apply negb_false_iff in Hk.
  - unfold ext_of_key, bind, get. now rewrite Hk.
  - unfold json_of_key, bind, get. now rewrite Hk.
Qed.

(** *** The dashboard writer, key by key *)

Lemma board_of_key_cases hw w key e :
  (startswith "_" key = true /\
   board_of_key dict_mean hw w key e = (Return tt, e)) \/
  (startswith "_" key = false /\
   ((exists x, board_of_key dict_mean hw w key e = (Raise x, e)) \/
    (exists func record,
       board_of_key dict_mean hw w key e =
         (Return tt, board_add (Add func (tag_of e key) record (iter e)) e)))).
Proof.
  unfold board_of_key, tag_of, bind, get, lift, raise, modify.
  destruct (startswith "_" key); [left; now split | right; split; [reflexivity|]].
  destruct (endswith "_" key).
  - destruct (nth_from_end 2 (split "_" key)) as [log_type|]; [|eauto].
    destruct (negb (str_in log_type log_types)); [eauto|].
    destruct (latest (buffer e) key) as [record|x]; [|eauto].
    destruct hw; eauto.
  - destruct (avg dict_mean (buffer e) key w) as [record|x]; [|eauto].
    destruct hw; [|eauto]. destruct record; eauto.
Qed.

Lemma board_loop hw w ks e :
  let r := for_each ks (board_of_key dict_mean hw w) e in
  inputs (snd r) = inputs e /\
  exists l,
    board (snd r) = board e ++ l /\
    Forall (fun c => call_step c = iter e) l /\
    call_tag <$> l `prefix_of` (tag_of e <$> visible ks) /\
    (fst r = Return tt -> call_tag <$> l = tag_of e <$> visible ks) /\
    (forall x, fst r = Raise x -> (length l < length (visible ks))%nat).
Proof.
  revert e. induction ks as [|key ks IH]; intros e; cbn zeta.
  - split; [reflexivity|]. exists []. cbn. rewrite app_nil_r.
    repeat split; auto. discriminate.
  - cbn [for_each visible List.filter]. unfold bind.
    destruct (board_of_key_cases hw w key e)
      as [[Hs ->] | [Hs [[x ->] | (func & record & ->)]]]; rewrite Hs; cbn [negb].
    + apply IH.
    + cbn. split; [reflexivity|]. exists []. rewrite app_nil_r.
      split; [reflexivity|]. split; [constructor|]. split; [apply prefix_nil|].
      split; [discriminate|]. intros; cbn; lia.
    + destruct (IH (board_add (Add func (tag_of e key) record (iter e)) e))
        as (Hi & l & Hb & Hst & Hpre & Hret & Hraise).
      cbn zeta in Hi, Hb, Hst, Hpre, Hret, Hraise.
      split; [exact Hi|].
      exists (Add func (tag_of e key) record (iter e) :: l).
      split; [rewrite Hb; cbn; now rewrite <- app_assoc|].
      split; [constructor; [reflexivity | exact Hst]|].
      split; [cbn; now apply prefix_cons|].
      split; [intros H; cbn; f_equal; now apply Hret|].
      intros x H. apply Hraise in H. unfold visible in *. cbn [length]. lia.
Qed.

(** X13.  The dashboard writer makes one call per key without the
    leading marker, in the order of the keys, each with the engine's [iter]
    as global step and the key's tag ([key/mode], or for a rich-media key
    the tokens before the type, joined, then [/mode]).  It does not write
    all or nothing: when a key makes it raise, the calls already made for
    the keys before it stay on the dashboard, and the keys after it are
    not written.  It changes nothing else of the engine. *)
Theorem dashboard_calls hw window_size e :
  let r := TensorboardWriter_write dict_mean hw window_size e in
  exists l,
    board (snd r) = board e ++ l /\
    Forall (fun c => call_step c = iter e) l /\
    call_tag <$> l `prefix_of` (tag_of e <$> visible (keys (buffer e))) /\
    (fst r = Return tt -> call_tag <$> l = tag_of e <$> visible (keys (buffer e))) /\
    (forall x, fst r = Raise x ->
       (length l < length (visible (keys (buffer e))))%nat).
Proof.
  cbn zeta. unfold TensorboardWriter_write. unfold bind, get.
  destruct (board_loop hw window_size (keys (buffer e)) e) as [_ H]. exact H.
Qed.

End Writers.

(** *** Tags of rich-media keys *)

Lemma split_app sep a b :
  split sep (a +:+ String sep b) = split sep a ++ split sep b.
Proof.
  induction a as [|c a IH].
  - change ("" +:+ String sep b) with (String sep b). cbn [split].
    now rewrite Ascii.eqb_refl.
  - rewrite EngineFacts.append_cons. cbn [split]. rewrite IH.
    destruct (Ascii.eqb c sep); [reflexivity|].
    destruct (split sep a) as [|t ts] eqn:Hs; [|reflexivity].
    destruct a as [|d a']; [discriminate|]. cbn [split] in Hs.
    destruct (Ascii.eqb d sep); [discriminate|].
    destruct (split sep a'); discriminate.
Qed.

Lemma split_no_sep sep t : has_char sep t = false -> split sep t = [t].
Proof.
  induction t as [|d t IH]; [reflexivity|]. cbn [has_char split].
  destruct (Ascii.eqb d sep); [discriminate|]. cbn [orb]. intros H.
  now rewrite IH.
Qed.

Lemma join_split sep s : join (split sep s) = strip sep s.
Proof.
  induction s as [|c s IH]; [reflexivity|]. cbn [split strip].
  destruct (Ascii.eqb c sep).
  - unfold join in *. cbn [fold_right]. exact IH.
  - rewrite <- IH. destruct (split sep s) as [|t ts]; reflexivity.
Qed.

Lemma nth_from_end_two {A} (l : list A) a b : nth_from_end 2 (l ++ [a; b]) = Some a.
Proof.
  unfold nth_from_end. rewrite length_app. cbn [length].
  rewrite decide_True by lia.
  rewrite lookup_app_r by lia.
  now replace (length l + 2 - 2 - length l)%nat with 0%nat by lia.
Qed.

Lemma drop_last_two {A} (l : list A) a b : drop_last 2 (l ++ [a; b]) = l.
Proof.
  unfold drop_last. rewrite length_app. cbn [length].
  replace (length l + 2 - 2)%nat with (length l) by lia.
  now rewrite take_app_length.
Qed.

Lemma rev_onto_app a b acc :
  str_rev_onto (a +:+ b) acc = str_rev_onto b (str_rev_onto a acc).
Proof.
  revert acc. induction a as [|c a IH]; intros acc; [reflexivity|].
  rewrite EngineFacts.append_cons. cbn [str_rev_onto]. apply IH.
Qed.

Lemma log_types_plain ty : str_in ty log_types = true -> has_char "_" ty = false.
Proof.
  unfold str_in, log_types. cbn [existsb]. rewrite !orb_true_iff.
  intros H. repeat destruct H as [H|H]; try discriminate;
    apply String.eqb_eq in H; subst ty; reflexivity.
Qed.

Section Tags.

Variable dict_mean : list (list (string * float)) -> list (string * float).

(** X14.  The tag of a rich-media series loses every underscore of the
    metric name: for the key [name_type_], with a supported type and a
    name that is not empty and has no leading marker, the dashboard
    writer calls [add_type] with the tag made of the name without its
    underscores, then [/mode].  Two names that differ by underscores only
    (my_loss and myloss) are written under the same tag. *)
Theorem rich_media_tag_drops_underscores window_size e n ty record :
  n <> "" -> startswith "_" n = false -> str_in ty log_types = true ->
  latest (buffer e) (n +:+ "_" +:+ ty +:+ "_") = Return record ->
  board_of_key dict_mean true window_size (n +:+ "_" +:+ ty +:+ "_") e =
    (Return tt,
     board_add (Add ("add_" +:+ ty) (strip "_" n +:+ "/" +:+ mode e) record (iter e)) e).
Proof.
  intros Hn Hlead Hty Hrec.
  assert (Hsplit : split "_" (n +:+ "_" +:+ ty +:+ "_") = split "_" n ++ [ty; ""]).
  { change (n +:+ "_" +:+ ty +:+ "_") with (n +:+ String "_" (ty +:+ String "_" "")).
    rewrite !split_app. rewrite (split_no_sep _ ty) by now apply log_types_plain.
    reflexivity. }
  assert (Hend : endswith "_" (n +:+ "_" +:+ ty +:+ "_") = true).
  { unfold endswith, str_rev.
    change (n +:+ "_" +:+ ty +:+ "_") with (n +:+ (String "_" ty +:+ "_")).
    rewrite !rev_onto_app. cbn [str_rev_onto String.prefix].
    destruct (ascii_dec "_" "_"); [|congruence].
    now destruct (str_rev_onto ty _). }
  assert (Hstart : startswith "_" (n +:+ "_" +:+ ty +:+ "_") = false).
  { destruct n as [|c n']; [congruence|]. rewrite EngineFacts.append_cons.
    unfold startswith in *. cbn [String.prefix] in *.
    destruct (ascii_dec "_" c); [|reflexivity].
    destruct n'; discriminate. }
  unfold board_of_key, bind, get, lift, modify.
  rewrite Hstart, Hend, Hsplit, nth_from_end_two, Hty, Hrec, drop_last_two.
  cbn [negb]. now rewrite join_split.
Qed.

End Tags.

Lemma rich_media_tag_drops_underscores_witness :
  board_of_key no_dicts true 2 "loss_histogram_" (at_iteration 4) =
    (Return tt,
     board_add (Add "add_histogram" "loss/train" (VObj "weights") 3) (at_iteration 4)).
Proof.
  apply (rich_media_tag_drops_underscores no_dicts 2 (at_iteration 4)
           "loss" "histogram" (VObj "weights"));
    [discriminate | reflexivity | reflexivity | reflexivity].
Defined.

(** *** The hook: writing, and emptying the buffer *)

Lemma emptied_keys b : keys (emptied b) = keys b.
Proof.
  unfold keys, emptied. rewrite <- list_fmap_compose. apply list_fmap_ext.
  intros i [k h] _. unfold compose. cbn [fst snd].
  now destruct (startswith "_" k).
Qed.

Lemma emptied_twice b : emptied (emptied b) = emptied b.
Proof.
  unfold emptied. rewrite <- list_fmap_compose. apply list_fmap_ext.
  intros i [k h] _. unfold compose. cbn [fst snd].
  destruct (startswith "_" k) eqn:Hk; cbn [fst snd]; now rewrite Hk.
Qed.

Lemma emptied_internal b :
  Forall (fun k => startswith "_" k = true) (keys b) -> emptied b = b.
Proof.
  unfold keys, emptied. intros H. rewrite <- (list_fmap_id b) at 2.
  apply list_fmap_ext. intros i [k h] Hi. cbn [fst snd].
  assert (Hk : startswith "_" k = true).
  { rewrite Forall_forall in H. apply H. apply list_elem_of_fmap.
    exists (k, h). split; [reflexivity|]. eapply list_elem_of_lookup_2; exact Hi. }
  now rewrite Hk.
Qed.

(** X15.  [_empty_buffer] always returns and changes the buffer only.  It
    keeps every key, in the same order; done a second time it changes
    nothing; and on a buffer whose keys all carry the leading marker it
    changes nothing at all. *)
Theorem empty_buffer_idempotent e :
  let e1 := snd (_empty_buffer e) in
  fst (_empty_buffer e) = Return tt /\
  e1 = set_buffer (buffer e1) e /\
  keys (buffer e1) = keys (buffer e) /\
  _empty_buffer e1 = (Return tt, e1) /\
  (Forall (fun k => startswith "_" k = true) (keys (buffer e)) -> e1 = e).
Proof.
  cbn zeta. rewrite (empty_buffer_emptied e). cbn [fst snd].
  split; [reflexivity|]. split; [reflexivity|].
  split; [cbn; apply emptied_keys|]. split.
  - rewrite empty_buffer_emptied. cbn. now rewrite emptied_twice.
  - intros H. rewrite (emptied_internal _ H). now destruct e.
Qed.

Section Hook.

Variable round5 : float -> float.
Variable dict_mean : list (list (string * float)) -> list (string * float).

Lemma write_loop_order interval ws e :
  let r := for_each ws (fun w => modify (note_call (w, interval)) ;;
                                 write round5 dict_mean w interval) e in
  buffer (snd r) = buffer e /\
  exists k,
    (k <= length ws)%nat /\
    new_calls e (snd r) = (fun w => (w, interval)) <$> take k ws /\
    (fst r = Return tt -> k = length ws) /\
    (forall x, fst r = Raise x ->
       (0 < k)%nat /\
       exists w e0, ws !! (k - 1)%nat = Some w /\
                    fst (write round5 dict_mean w interval e0) = Raise x).
Proof.
  cbn zeta. unfold new_calls.
  set (body := fun w0 => modify (note_call (w0, interval)) ;;
                         write round5 dict_mean w0 interval).
  revert e. induction ws as [|w ws IH]; intros e.
  - split; [reflexivity|]. exists O. cbn. rewrite drop_all.
    repeat split; auto; discriminate.
  - assert (E : for_each (w :: ws) body e =
                match write round5 dict_mean w interval (note_call (w, interval) e) with
                | (Return _, e1) => for_each ws body e1
                | (Raise x, e1) => (Raise x, e1)
                end).
    { cbn [for_each]. unfold body at 1. unfold bind, modify.
      now destruct (write round5 dict_mean w interval (note_call (w, interval) e))
        as [[[]|x] e1]. }
    rewrite E. clear E.
    destruct (frames_write round5 dict_mean w interval (note_call (w, interval) e))
      as [Hb Hc].
    destruct (write round5 dict_mean w interval (note_call (w, interval) e))
      as [[[]|x] e1] eqn:Hw; cbn in Hb, Hc |- *.
    + destruct (IH e1) as (Hb1 & k & Hk & Hn & Hret & Hraise).
      split; [etrans; [exact Hb1 | exact Hb]|].
      exists (S k). split; [lia|]. split.
      * cbn [take fmap list_fmap]. rewrite <- Hn.
        destruct (write_loop_calls round5 dict_mean interval ws e1)
          as (_ & k' & _ & _ & Hc'). cbn zeta in Hc'. fold body in Hc'.
        rewrite Hc', Hc. rewrite (drop_app_length (calls e ++ [(w, interval)])).
        now rewrite <- app_assoc, drop_app_length.
      * split; [intros H; f_equal; now apply Hret|].
        intros y H. destruct (Hraise y H) as (Hpos & w' & e0 & Hw' & Hx).
        split; [lia|]. exists w', e0. split; [|exact Hx].
        replace (S k - 1)%nat with (S (k - 1))%nat by lia. exact Hw'.
    + split; [assumption|]. exists 1%nat. split; [lia|]. split.
      * rewrite Hc, drop_app_length. cbn. now rewrite take_0.
      * split; [discriminate|]. intros y [= <-]. split; [lia|].
        exists w, (note_call (w, interval) e). split; [reflexivity|].
        now rewrite Hw.
Qed.

(** X16.  [_write] calls the writers in the order of the hook's list,
    each once, each with the hook's interval as window size.  When every
    writer returns, all have been called; the first writer that raises ends
    the loop with its exception, and the writers after it are not called.
    The buffer is as it was either way. *)
Theorem writers_called_in_order self e :
  let r := _write round5 dict_mean self e in
  buffer (snd r) = buffer e /\
  exists k,
    (k <= length (_writers self))%nat /\
    new_calls e (snd r) =
      (fun w => (w, _interval self)) <$> take k (_writers self) /\
    (fst r = Return tt -> k = length (_writers self)) /\
    (forall x, fst r = Raise x ->
       (0 < k)%nat /\
       exists w e0, _writers self !! (k - 1)%nat = Some w /\
                    fst (write round5 dict_mean w (_interval self) e0) = Raise x).
Proof.
  cbn zeta. unfold _write.
  destruct (write_loop_order (_interval self) (_writers self) e) as [Hb Hk].
  split; [exact Hb | exact Hk].
Qed.

(** The two statements that end both callbacks, whatever the writers do. *)
Lemma fire_outcome self e :
  let w := _write round5 dict_mean self e in
  fire round5 dict_mean self e =
    match fst w with
    | Return _ => (Return tt, set_buffer (emptied (buffer e)) (snd w))
    | Raise x => (Raise x, snd w)
    end.
Proof.
  cbn zeta. unfold fire, bind.
  destruct (write_loop_order (_interval self) (_writers self) e) as [Hb _].
  unfold _write in *. cbn zeta in Hb.
  destruct (for_each (_writers self) _ e) as [[[]|x] e1];
    cbn [fst snd] in Hb |- *; [|reflexivity].
  rewrite empty_buffer_emptied. now rewrite Hb.
Qed.

(** X17.  After a validation epoch the hook fires on the master process
    whatever the iteration and the interval: the writers are called, in
    order, and if all return the buffer is emptied; if one raises the
    buffer is left as it was.  On any other process the callback leaves
    the engine untouched. *)
Theorem after_val_epoch_fires self e :
  (is_master e = false ->
   after_val_epoch round5 dict_mean self e = (Return tt, e)) /\
  (is_master e = true ->
   let r := after_val_epoch round5 dict_mean self e in
   exists k,
     (k <= length (_writers self))%nat /\
     new_calls e (snd r) =
       (fun w => (w, _interval self)) <$> take k (_writers self) /\
     (_writers self <> [] -> (0 < k)%nat) /\
     (fst r = Return tt ->
      k = length (_writers self) /\ buffer (snd r) = emptied (buffer e)) /\
     (forall x, fst r = Raise x -> buffer (snd r) = buffer e)).
Proof.
  split; intros Hm.
  - unfold after_val_epoch, master_only. now rewrite Hm.
  - cbn zeta. unfold after_val_epoch, master_only. rewrite Hm.
    change (bind (_write round5 dict_mean self) (fun _ => _empty_buffer) e)
      with (fire round5 dict_mean self e).
    rewrite fire_outcome. cbn zeta. unfold _write.
    destruct (write_loop_order (_interval self) (_writers self) e)
      as (Hb & k & Hk & Hn & Hret & Hraise).
    cbn zeta in Hb, Hn, Hret, Hraise.
    exists k. split; [exact Hk|].
    destruct (fst (for_each (_writers self) _ e)) as [[]|x] eqn:Hf;
      cbn [fst snd].
    + split; [exact Hn|]. specialize (Hret eq_refl). split.
      * intros Hne. destruct (_writers self); [congruence | cbn in Hret; lia].
      * split; [intros _; split; [exact Hret | reflexivity] | discriminate].
    + split; [exact Hn|]. destruct (Hraise x eq_refl) as [Hpos _]. split.
      * intros _. exact Hpos.
      * split; [discriminate | intros y _; exact Hb].
Qed.

(** X18.  After a training iteration the hook changes the buffer in one
    case only: on the master process, on an iteration that is the last of
    its epoch or on the interval, when every writer has returned; then the
    buffer is emptied.  On another process, on any other iteration, or
    when a writer has raised, the buffer is exactly as it was. *)
Theorem after_train_iter_buffer self e :
  let r := after_train_iter round5 dict_mean self e in
  buffer (snd r) =
    match fst r with
    | Return _ =>
        if is_master e && (last_iter_in_epoch e || every_n_iters e (_interval self))
        then emptied (buffer e) else buffer e
    | Raise _ => buffer e
    end.
Proof.
  cbn zeta. destruct (is_master e) eqn:Hm.
  - rewrite after_train_iter_master by assumption. cbn [andb].
    destruct (last_iter_in_epoch e || every_n_iters e (_interval self));
      [|reflexivity].
    rewrite fire_outcome. cbn zeta.
    destruct (write_loop_order (_interval self) (_writers self) e) as [Hb _].
    cbn zeta in Hb. unfold _write.
    destruct (fst (for_each (_writers self) _ e)); cbn; [reflexivity | exact Hb].
  - rewrite after_train_iter_worker by assumption. reflexivity.
Qed.

End Hook.

(** X19.  The ETA of the console line never changes the engine, and it
    fails in three ways: an error of the buffer query for "_total_time"
    (the series was never recorded, or is empty) is passed on as it is; a
    latest value that is a dict gives a [TypeError]; and when [iter + 1]
    equals [start_iter] the division raises [ZeroDivisionError]. *)
Theorem eta_errors e :
  snd (eta e) = e /\
  (forall x, latest (buffer e) "_total_time" = Raise x -> fst (eta e) = Raise x) /\
  (forall d, latest (buffer e) "_total_time" = Return (VDict d) ->
             exists msg, fst (eta e) = Raise (TypeError msg)) /\
  (forall t left,
     latest (buffer e) "_total_time" = Return (VNum t) ->
     float_of_int (max_iters e - iter e - 1) = Return left ->
     iter e + 1 = start_iter e ->
     exists msg, fst (eta e) = Raise (ZeroDivisionError msg)).
Proof.
  split; [|split; [|split]].
  - unfold eta. assert (H : reads eta) by (unfold eta; repeat reads_step).
    apply H.
  - intros x H. unfold eta, bind, get, lift. now rewrite H.
  - intros d Hd. unfold eta, bind, get, lift, raise. rewrite Hd. eauto.
  - intros t left Ht Hl Hz. unfold eta, bind, get, lift. rewrite Ht, Hl.
    replace (iter e + 1 - start_iter e) with 0 by lia. cbn. eauto.
Qed.

Lemma after_val_epoch_fires_witness :
  after_val_epoch no_round no_dicts sample_hook (on_worker (at_iteration 3)) =
    (Return tt, on_worker (at_iteration 3)) /\
  exists k,
    new_calls (at_iteration 3)
      (snd (after_val_epoch no_round no_dicts sample_hook (at_iteration 3))) =
      (fun w => (w, 2)) <$> take k [TensorboardWriter true; CommandLineWriter] /\
    (0 < k)%nat.
Proof.
  destruct (after_val_epoch_fires no_round no_dicts sample_hook
              (on_worker (at_iteration 3))) as [Hw _].
  destruct (after_val_epoch_fires no_round no_dicts sample_hook (at_iteration 3))
    as [_ Hm].
  split; [apply Hw; reflexivity|].
  destruct (Hm eq_refl) as (k & _ & Hn & Hpos & _).
  exists k. split; [exact Hn | apply Hpos; discriminate].
Defined.

Lemma eta_errors_witness :
  fst (eta (set_buffer [] (at_iteration 4))) = Raise (KeyError "_total_time") /\
  exists msg, fst (eta (at_iteration 0)) = Raise (ZeroDivisionError msg).
Proof.
  destruct (eta_errors (set_buffer [] (at_iteration 4))) as (_ & Hk & _).
  destruct (eta_errors (at_iteration 0)) as (_ & _ & _ & Hz).
  split; [apply Hk; reflexivity|].
  eapply Hz; vm_compute; reflexivity.
Defined.

End EventsCoverage.
